(** * Gene symbol to Entrez Gene ID resolution (gene_to_id.py)

    A shallow embedding of the script that turns a list of gene symbols
    into Entrez Gene IDs through the NCBI ESearch and EFetch services:
    the two retried client functions [call_esearch] and [call_efetch],
    and the module-level loop that disambiguates the candidates of every
    symbol.

    The script is a sequence of effects on a handful of module-level
    names and append-only files, so it is embedded as a state and
    exception monad over a record holding exactly those names and files.
    The remote service is an oracle indexed by the number of HTTP
    requests already issued, so that its answers may change over time. *)

From Stdlib Require Import ZArith List Bool Lia.
From stdpp Require Import base strings gmap list.

Import ListNotations.
Open Scope string_scope.
Open Scope Z_scope.
Open Scope list_scope.

(** ** Python exceptions that can reach the loop *)

Inductive exn : Type :=
| RequestException (detail : string)   (* connection error, timeout, ... *)
| HTTPError (status : Z)                (* raise_for_status *)
| JSONDecodeError                       (* response1.json() *)
| KeyError (key : string)               (* ["esearchresult"]["idlist"] *)
| ParseError                            (* ET.fromstring *)
| NameError (name : string)             (* read of an unbound name *)
| RetryError                            (* tenacity: attempts exhausted *)
| OtherError (detail : string).         (* any other Exception *)

(** [isinstance(e, requests.RequestException)]: [HTTPError] and
    requests' [JSONDecodeError] derive from it. *)
Definition isinstance_RequestException (e : exn) : bool :=
  match e with
  | RequestException _ | HTTPError _ | JSONDecodeError => true
  | _ => false
  end.

(** ** XML documents and the ElementTree path queries

    Every path of the script has the shape [.//A/B/C]: all descendants
    of the root tagged [A], in document order, then children, then
    children. *)

#[warnings="-register-all"]
Inductive Element : Type :=
| Elem (tag : string) (text : option string) (children : list Element).

Definition tag_of (e : Element) : string :=
  match e with Elem t _ _ => t end.
Definition text_of (e : Element) : option string :=
  match e with Elem _ x _ => x end.
Definition children_of (e : Element) : list Element :=
  match e with Elem _ _ cs => cs end.

(** [elem.iter()]: the element and everything below it, in pre-order. *)
Fixpoint iter (e : Element) : list Element :=
  match e with
  | Elem _ _ cs => e :: flat_map iter cs
  end.

Definition has_tag (t : string) (e : Element) : bool := String.eqb (tag_of e) t.

(** The step [//A]: what [iter] yields, the context element left out. *)
Definition descendants (t : string) (e : Element) : list Element :=
  List.filter (has_tag t) (flat_map iter (children_of e)).

(** The step [/B]. *)
Definition child_step (t : string) (es : list Element) : list Element :=
  flat_map (fun e => List.filter (has_tag t) (children_of e)) es.

Definition findall (path : string * list string) (root : Element) : list Element :=
  fold_left (fun es t => child_step t es) (snd path) (descendants (fst path) root).

Definition find (path : string * list string) (root : Element) : option Element :=
  head (findall path root).

Definition discontinue_date_path : string * list string :=
  ("Entrezgene_track-info", ["Gene-track"; "Gene-track_discontinue-date"]).
Definition locus_path : string * list string :=
  ("Entrezgene_gene", ["Gene-ref"; "Gene-ref_locus"]).
Definition syn_path : string * list string :=
  ("Entrezgene_gene", ["Gene-ref"; "Gene-ref_syn"; "Gene-ref_syn_E"]).

(** ** The remote service *)

Inductive Request : Type :=
| ESearch (gene_name : string) (retmax : Z) (sort : string)
| EFetch (gene_id : string).

(** What a response body is good for: [.json()] followed by the two
    subscripts, or [ET.fromstring(.text)]. *)
Inductive Body : Type :=
| BodyJson (idlist : option (list string))   (* None: a key is missing *)
| BodyXml (root : Element)
| BodyText.                                   (* neither JSON nor XML *)

Record Response : Type := { status_code : Z; body : Body }.

Inductive Attempt : Type :=
| GetRaises (e : exn)
| GetReturns (r : Response).

(** The answer to the [n]-th HTTP request of the run. *)
Definition Remote : Type := nat -> Request -> Attempt.

(** ** Program state *)

Inductive Event : Type :=
| EvCall (rq : Request)     (* call_esearch / call_efetch entered *)
| EvGet (rq : Request)      (* one requests.get *)
| EvSleep (seconds : Z).    (* tenacity waiting between attempts *)

Inductive LogEntry : Type :=
| LogCount (n : nat)
| LogNotFound (gene : string)
| LogUnique (gene gene_id : string)
| LogDiscontinuedSole (gene shown_id : string)
| LogMulti (gene : string) (ids_list : list string)
| LogChecking (gene check_id : string)
| LogDiscontinued (gene check_id : string)
| LogNoOfficial (gene check_id : string)
| LogManyOfficial (gene check_id : string)
| LogSuccess (gene gene_id : string)
| LogFailed (gene : string) (e : exn).

Record State : Type := mkState {
  clock : nat;                                       (* requests.get issued so far *)
  trace : list Event;
  check_gene_id : option string;                     (* None: the name is unbound *)
  gene_id_dict : gmap string string;
  log_file : list LogEntry;
  genes_None : list string;                          (* genes_None.txt *)
  genes_NCBI_Discontinued_1 : list (string * string);
  genes_NCBI_Discontinued_2 : list (string * string)
}.

Definition init_state : State :=
  mkState 0 [] None ∅ [] [] [] [].

(** ** The state and exception monad *)

Inductive Outcome (A : Type) : Type :=
| Ok (a : A)
| Raise (e : exn).
Arguments Ok {A} a.
Arguments Raise {A} e.

Definition M (A : Type) : Type := State -> State * Outcome A.

Definition ret {A} (a : A) : M A := fun s => (s, Ok a).
Definition raise {A} (e : exn) : M A := fun s => (s, Raise e).
Definition bind {A B} (m : M A) (k : A -> M B) : M B :=
  fun s => match m s with
           | (s', Ok a) => k a s'
           | (s', Raise e) => (s', Raise e)
           end.
Definition modify (f : State -> State) : M unit := fun s => (f s, Ok tt).

Declare Scope py_scope.
Delimit Scope py_scope with py.
Notation "x <- m ;; k" := (bind m (fun x => k))
  (at level 62, m at next level, right associativity) : py_scope.
Notation "m ;;; k" := (bind m (fun _ => k))
  (at level 62, right associativity) : py_scope.
Open Scope py_scope.

Definition emit (ev : Event) : M unit :=
  modify (fun s => mkState (clock s) (trace s ++ [ev]) (check_gene_id s)
                     (gene_id_dict s) (log_file s) (genes_None s)
                     (genes_NCBI_Discontinued_1 s) (genes_NCBI_Discontinued_2 s)).

Definition tick : M nat :=
  fun s => (mkState (S (clock s)) (trace s) (check_gene_id s)
              (gene_id_dict s) (log_file s) (genes_None s)
              (genes_NCBI_Discontinued_1 s) (genes_NCBI_Discontinued_2 s),
            Ok (clock s)).

Definition log_write (l : LogEntry) : M unit :=
  modify (fun s => mkState (clock s) (trace s) (check_gene_id s)
                     (gene_id_dict s) (log_file s ++ [l]) (genes_None s)
                     (genes_NCBI_Discontinued_1 s) (genes_NCBI_Discontinued_2 s)).

Definition write_genes_None (gene : string) : M unit :=
  modify (fun s => mkState (clock s) (trace s) (check_gene_id s)
                     (gene_id_dict s) (log_file s) (genes_None s ++ [gene])
                     (genes_NCBI_Discontinued_1 s) (genes_NCBI_Discontinued_2 s)).

Definition write_Discontinued_1 (gene gene_id : string) : M unit :=
  modify (fun s => mkState (clock s) (trace s) (check_gene_id s)
                     (gene_id_dict s) (log_file s) (genes_None s)
                     (genes_NCBI_Discontinued_1 s ++ [(gene, gene_id)])
                     (genes_NCBI_Discontinued_2 s)).

Definition write_Discontinued_2 (gene gene_id : string) : M unit :=
  modify (fun s => mkState (clock s) (trace s) (check_gene_id s)
                     (gene_id_dict s) (log_file s) (genes_None s)
                     (genes_NCBI_Discontinued_1 s)
                     (genes_NCBI_Discontinued_2 s ++ [(gene, gene_id)])).

(** [for check_gene_id in ...] binds the module-level name. *)
Definition bind_check_gene_id (v : string) : M unit :=
  modify (fun s => mkState (clock s) (trace s) (Some v)
                     (gene_id_dict s) (log_file s) (genes_None s)
                     (genes_NCBI_Discontinued_1 s) (genes_NCBI_Discontinued_2 s)).

(** Reading the name: a [NameError] while it is unbound. *)
Definition read_check_gene_id : M string :=
  fun s => match check_gene_id s with
           | Some v => (s, Ok v)
           | None => (s, Raise (NameError "check_gene_id"))
           end.

(** [gene_id_dict[gene] = gene_id] *)
Definition dict_set (gene gene_id : string) : M unit :=
  modify (fun s => mkState (clock s) (trace s) (check_gene_id s)
                     (<[gene := gene_id]> (gene_id_dict s)) (log_file s) (genes_None s)
                     (genes_NCBI_Discontinued_1 s) (genes_NCBI_Discontinued_2 s)).

(** ** tenacity's [retry] decorator

    [stop_after_attempt n] stops once the attempt number reaches [n];
    [wait_fixed d] sleeps [d] seconds before every further attempt;
    [retry_if_exception_type] retries only on the failures it accepts,
    every other exception is raised again at once. With the default
    [reraise=False], exhaustion raises [RetryError]. *)

Fixpoint retry_from {A} (wait_fixed : Z) (retry_if : exn -> bool)
    (fn : M A) (further : nat) : M A :=
  fun s =>
    match fn s with
    | (s', Ok a) => (s', Ok a)
    | (s', Raise e) =>
        if retry_if e then
          match further with
          | O => (s', Raise RetryError)
          | S n => (emit (EvSleep wait_fixed) ;;;
                    retry_from wait_fixed retry_if fn n) s'
          end
        else (s', Raise e)
    end.

Definition retry {A} (stop_after_attempt : nat) (wait_fixed : Z)
    (retry_if : exn -> bool) (fn : M A) : M A :=
  retry_from wait_fixed retry_if fn (Nat.pred stop_after_attempt).

Section Program.

Variable remote : Remote.

(** [requests.get(base_url, params=params)] *)
Definition requests_get (rq : Request) : M Response :=
  n <- tick ;;
  emit (EvGet rq) ;;;
  match remote n rq with
  | GetRaises e => raise e
  | GetReturns r => ret r
  end.

(** [response.raise_for_status()] *)
Definition raise_for_status (r : Response) : M unit :=
  if (400 <=? status_code r) && (status_code r <? 600)
  then raise (HTTPError (status_code r))
  else ret tt.

Definition http_call (rq : Request) : M Response :=
  response <- requests_get rq ;;
  raise_for_status response ;;;
  ret response.

Definition call_esearch (gene_name : string) (max_uids : Z) (sort_uids : string)
  : M Response :=
  emit (EvCall (ESearch gene_name max_uids sort_uids)) ;;;
  retry 6 3 isinstance_RequestException
    (http_call (ESearch gene_name max_uids sort_uids)).

Definition call_efetch (gene_id : string) : M Response :=
  emit (EvCall (EFetch gene_id)) ;;;
  retry 6 3 isinstance_RequestException (http_call (EFetch gene_id)).

(** [response1.json()["esearchresult"]["idlist"]] *)
Definition json_idlist (r : Response) : M (list string) :=
  match body r with
  | BodyJson (Some ids) => ret ids
  | BodyJson None => raise (KeyError "idlist")
  | _ => raise JSONDecodeError
  end.

(** [ET.fromstring(response2.text)] *)
Definition fromstring (r : Response) : M Element :=
  match body r with
  | BodyXml root => ret root
  | _ => raise ParseError
  end.

(** The texts of the nodes [findall] returns ([.text] is [None] for an
    element without text). *)
Definition texts (es : list Element) : list (option string) := map text_of es.

(** [gene in gene_aliases] *)
Definition gene_in (gene : string) (gene_aliases : list (option string)) : bool :=
  existsb (fun a => match a with Some x => String.eqb gene x | None => false end)
          gene_aliases.

(** [gene == official_symbol]: [official_symbol] is the empty list when
    no node was found, else the text of the first node. *)
Definition gene_eq (gene : string) (official_symbol : option string) : bool :=
  match official_symbol with
  | Some x => String.eqb gene x
  | None => false
  end.

(** Lines 194-206: log, and keep the first official symbol. *)
Definition pick_official (gene check_id : string)
    (official_symbol : list (option string)) : M (option string) :=
  match official_symbol with
  | [] => log_write (LogNoOfficial gene check_id) ;;; ret None
  | [o] => ret o
  | o :: _ => log_write (LogManyOfficial gene check_id) ;;; ret o
  end.

(** Lines 154-214: [for check_gene_id in ids_list]. The result is the
    pair of [gene_id] and [candidate_gene_id] when the loop is left. *)
Fixpoint for_check_gene_id (gene : string) (ids : list string)
    (gene_id : string) (candidate_gene_id : list string)
  : M (string * list string) :=
  match ids with
  | [] => ret (gene_id, candidate_gene_id)
  | check_id :: rest =>
      bind_check_gene_id check_id ;;;
      response2 <- call_efetch check_id ;;
      root <- fromstring response2 ;;
      match find discontinue_date_path root with
      | Some _ =>
          log_write (LogDiscontinued gene check_id) ;;;
          write_Discontinued_2 gene check_id ;;;
          for_check_gene_id gene rest gene_id candidate_gene_id   (* continue *)
      | None =>
          log_write (LogChecking gene check_id) ;;;
          let official_symbol := texts (findall locus_path root) in
          let gene_aliases := texts (findall syn_path root) in
          official_symbol <- pick_official gene check_id official_symbol ;;
          if gene_eq gene official_symbol
          then ret (check_id, [])                                  (* break *)
          else if gene_in gene gene_aliases
               then for_check_gene_id gene rest gene_id
                      (candidate_gene_id ++ [check_id])
               else for_check_gene_id gene rest gene_id candidate_gene_id
      end
  end.

(** Lines 111-214 of one iteration. [None] stands for [continue]. *)
Definition candidates (gene : string) : M (option (string * list string)) :=
  response1 <- call_esearch gene 25 "relevance" ;;
  ids_list <- json_idlist response1 ;;
  match ids_list with
  | [] =>
      log_write (LogNotFound gene) ;;;
      write_genes_None gene ;;;
      ret None
  | [gene_id] =>
      response2 <- call_efetch gene_id ;;
      root <- fromstring response2 ;;
      match find discontinue_date_path root with
      | None =>
          log_write (LogUnique gene gene_id) ;;;
          ret (Some (gene_id, []))
      | Some _ =>
          shown <- read_check_gene_id ;;
          log_write (LogDiscontinuedSole gene shown) ;;;
          write_Discontinued_1 gene gene_id ;;;
          ret None
      end
  | gene_id :: _ =>
      log_write (LogMulti gene ids_list) ;;;
      r <- for_check_gene_id gene ids_list gene_id [] ;;
      ret (Some r)
  end.

(** Lines 216-219. *)
Definition final_gene_id (gene_id : string) (candidate_gene_id : list string)
  : string :=
  match candidate_gene_id with
  | c :: _ => c
  | [] => gene_id
  end.

(** The body of the [try]. *)
Definition try_body (gene : string) : M unit :=
  r <- candidates gene ;;
  match r with
  | None => ret tt
  | Some (gene_id, candidate_gene_id) =>
      let gene_id := final_gene_id gene_id candidate_gene_id in
      dict_set gene gene_id ;;;
      log_write (LogSuccess gene gene_id)
  end.

(** [except Exception as e] *)
Definition except_handler (gene : string) (e : exn) : M unit :=
  log_write (LogFailed gene e) ;;;
  write_genes_None gene.

(** One iteration of [for gene in tqdm(all_genes)]. *)
Definition iteration (gene : string) (s : State) : State :=
  match try_body gene s with
  | (s', Ok _) => s'
  | (s', Raise e) => fst (except_handler gene e s')
  end.

Definition loop (all_genes : list string) (s : State) : State :=
  fold_left (fun s gene => iteration gene s) all_genes s.

(** Lines 103-107: the log is opened and the dictionary is empty. *)
Definition start (all_genes : list string) : State :=
  fst (log_write (LogCount (length all_genes)) init_state).

(** The script from line 103 on. *)
Definition main (all_genes : list string) : State :=
  loop all_genes (start all_genes).

(** Either client function, by the request it sends. *)
Definition call_of (rq : Request) : M Response :=
  match rq with
  | ESearch gene_name max_uids sort_uids =>
      call_esearch gene_name max_uids sort_uids
  | EFetch gene_id => call_efetch gene_id
  end.

End Program.

(** ** What the loop reads off a fetched record *)

Definition is_discontinued (root : Element) : bool :=
  match find discontinue_date_path root with
  | Some _ => true
  | None => false
  end.

(** The official symbol the loop compares with: the text of the first
    [Gene-ref_locus] node, if there is one. *)
Definition official_symbol_of (root : Element) : option string :=
  match texts (findall locus_path root) with
  | [] => None
  | o :: _ => o
  end.

Definition gene_aliases_of (root : Element) : list (option string) :=
  texts (findall syn_path root).

(** ** Sample records and remotes *)

Definition leaf (tag text : string) : Element := Elem tag (Some text) [].

(** An EFetch document with the given discontinuation marker, locus
    nodes and synonyms. *)
Definition gene_record (discontinued : bool) (loci syns : list string) : Element :=
  Elem "Entrezgene-Set" None
    [Elem "Entrezgene" None
       [Elem "Entrezgene_track-info" None
          [Elem "Gene-track" None
             (leaf "Gene-track_geneid" "0" ::
              if discontinued
              then [Elem "Gene-track_discontinue-date" None
                      [Elem "Date" None []]]
              else [])];
        Elem "Entrezgene_gene" None
          [Elem "Gene-ref" None
             (map (leaf "Gene-ref_locus") loci ++
              [Elem "Gene-ref_syn" None (map (leaf "Gene-ref_syn_E") syns)])]]].

Definition ok_json (ids : list string) : Attempt :=
  GetReturns {| status_code := 200; body := BodyJson (Some ids) |}.
Definition ok_xml (root : Element) : Attempt :=
  GetReturns {| status_code := 200; body := BodyXml root |}.

(** A remote that never changes: a search table and a record table. *)
Definition table_remote (searches : list (string * list string))
    (records : list (string * Element)) : Remote :=
  fun _ rq =>
    match rq with
    | ESearch gene _ _ =>
        match List.find (fun p => String.eqb (fst p) gene) searches with
        | Some p => ok_json (snd p)
        | None => ok_json []
        end
    | EFetch gene_id =>
        match List.find (fun p => String.eqb (fst p) gene_id) records with
        | Some p => ok_xml (snd p)
        | None => GetReturns {| status_code := 400; body := BodyText |}
        end
    end.

(** ** Observations on the trace *)

(** The symbols [call_esearch] was called with, in order. *)
Definition search_calls (tr : list Event) : list string :=
  flat_map (fun ev => match ev with
                      | EvCall (ESearch gene _ _) => [gene]
                      | _ => []
                      end) tr.

(** The identifiers [call_efetch] was called with, in order. *)
Definition fetch_calls (tr : list Event) : list string :=
  flat_map (fun ev => match ev with
                      | EvCall (EFetch gene_id) => [gene_id]
                      | _ => []
                      end) tr.

(** The symbols the run gave up on: [genes_None.txt] and the symbols of
    [genes_NCBI_Discontinued_1.txt]. *)
Definition unresolved (s : State) : list string :=
  genes_None s ++ map fst (genes_NCBI_Discontinued_1 s).

(** A response passes [raise_for_status]. *)
Definition status_ok (r : Response) : bool :=
  negb ((400 <=? status_code r) && (status_code r <? 600)).

(** One attempt fails in the class the decorator retries on. *)
Definition transient (a : Attempt) : bool :=
  match a with
  | GetRaises e => isinstance_RequestException e
  | GetReturns r => negb (status_ok r)
  end.

(** ** Footprints: relations every step of a computation stays within *)

Class Frame (Rel : State -> State -> Prop) : Prop := {
  frame_refl : forall s, Rel s s;
  frame_trans : forall a b c, Rel a b -> Rel b c -> Rel a c
}.

Definition steps {A} (Rel : State -> State -> Prop) (m : M A) : Prop :=
  forall s, Rel s (fst (m s)).

(** Only the clock and the wire part of the trace move. *)
Definition silent (s s' : State) : Prop :=
  check_gene_id s' = check_gene_id s /\
  gene_id_dict s' = gene_id_dict s /\
  log_file s' = log_file s /\
  genes_None s' = genes_None s /\
  genes_NCBI_Discontinued_1 s' = genes_NCBI_Discontinued_1 s /\
  genes_NCBI_Discontinued_2 s' = genes_NCBI_Discontinued_2 s /\
  search_calls (trace s') = search_calls (trace s) /\
  fetch_calls (trace s') = fetch_calls (trace s).

(** The footprint of the candidate loop: it fetches, logs and lists
    discontinued candidates, and touches no output of the run. *)
Definition scans (s s' : State) : Prop :=
  gene_id_dict s' = gene_id_dict s /\
  genes_None s' = genes_None s /\
  genes_NCBI_Discontinued_1 s' = genes_NCBI_Discontinued_1 s /\
  search_calls (trace s') = search_calls (trace s) /\
  log_file s `prefix_of` log_file s' /\
  genes_NCBI_Discontinued_2 s `prefix_of` genes_NCBI_Discontinued_2 s'.

(** One call of a client function: the call is recorded, the rest is
    [silent]. *)
Definition calls (rq : Request) (s s' : State) : Prop :=
  check_gene_id s' = check_gene_id s /\
  gene_id_dict s' = gene_id_dict s /\
  log_file s' = log_file s /\
  genes_None s' = genes_None s /\
  genes_NCBI_Discontinued_1 s' = genes_NCBI_Discontinued_1 s /\
  genes_NCBI_Discontinued_2 s' = genes_NCBI_Discontinued_2 s /\
  search_calls (trace s') = search_calls (trace s) ++ search_calls [EvCall rq] /\
  fetch_calls (trace s') = fetch_calls (trace s) ++ fetch_calls [EvCall rq].

(** The three ways an iteration can settle a symbol. *)
Inductive Settled (gene : string) (s s' : State) : Prop :=
| settled_resolved gene_id :
    gene_id_dict s' = <[gene := gene_id]> (gene_id_dict s) ->
    genes_None s' = genes_None s ->
    genes_NCBI_Discontinued_1 s' = genes_NCBI_Discontinued_1 s ->
    Settled gene s s'
| settled_none :
    gene_id_dict s' = gene_id_dict s ->
    genes_None s' = genes_None s ++ [gene] ->
    genes_NCBI_Discontinued_1 s' = genes_NCBI_Discontinued_1 s ->
    Settled gene s s'
| settled_discontinued gene_id :
    gene_id_dict s' = gene_id_dict s ->
    genes_None s' = genes_None s ->
    genes_NCBI_Discontinued_1 s' =
      genes_NCBI_Discontinued_1 s ++ [(gene, gene_id)] ->
    Settled gene s s'.


(** A symbol has entered the multi-candidate branch (line 148). *)
Definition has_LogMulti (l : list LogEntry) : bool :=
  existsb (fun x => match x with LogMulti _ _ => true | _ => false end) l.

(** [n] attempts on the wire, a wait of three seconds between them. *)
Fixpoint wire_of (rq : Request) (n : nat) : list Event :=
  match n with
  | O => []
  | S O => [EvGet rq]
  | S m => EvGet rq :: EvSleep 3 :: wire_of rq m
  end.

(** The remote answers a request with the same body whenever asked. *)
Definition answers (remote : Remote) (rq : Request) (b : Body) : Prop :=
  forall n, exists r,
    remote n rq = GetReturns r /\ status_ok r = true /\ body r = b.

(** The remote never changes its answer to any request. *)
Definition unchanging (remote : Remote) : Prop :=
  forall n m rq, remote n rq = remote m rq.

(** A remote on which every request fails at the transport level. *)
Definition dead_remote : Remote :=
  fun _ _ => GetRaises (RequestException "connection refused").

(** A remote whose answers are broken in a way no retry is made for. *)
Definition broken_remote : Remote :=
  fun _ _ => GetRaises (OtherError "misconfigured").

(** TP53 resolves; the answer to the search for BAD is not JSON. *)
Definition remote_bad_json : Remote :=
  fun n rq =>
    match rq with
    | ESearch "BAD" _ _ => GetReturns {| status_code := 200; body := BodyText |}
    | _ => table_remote [("TP53", ["7157"]); ("X", ["10"; "20"; "30"])]
             [("7157", gene_record false ["TP53"] ["P53"; "LFS1"]);
              ("10", gene_record false ["Y"] []);
              ("20", gene_record false ["X"] []);
              ("30", gene_record false ["Z"] ["X"])] n rq
    end.

(** The state after one [requests.get], and after tenacity's wait. *)
Definition after_get (rq : Request) (s : State) : State :=
  mkState (S (clock s)) (trace s ++ [EvGet rq]) (check_gene_id s)
    (gene_id_dict s) (log_file s) (genes_None s)
    (genes_NCBI_Discontinued_1 s) (genes_NCBI_Discontinued_2 s).

Definition after_sleep (s : State) : State := fst (emit (EvSleep 3) s).

(** The state after [j] failed attempts, each followed by the wait. *)
Fixpoint waited (rq : Request) (j : nat) (s : State) : State :=
  match j with
  | O => s
  | S j' => waited rq j' (after_sleep (after_get rq s))
  end.

(** What one attempt amounts to for the decorator. *)
Definition attempt_outcome (a : Attempt) : Outcome Response :=
  match a with
  | GetRaises e => Raise e
  | GetReturns r =>
      if status_ok r then Ok r else Raise (HTTPError (status_code r))
  end.

(** The search for A finds one identifier, whose record is discontinued;
    the search for B finds two live records. Nothing ever changes. *)
Definition remote_history : Remote :=
  table_remote [("A", ["7"]); ("B", ["1"; "2"])]
    [("7", gene_record true ["A"] []);
     ("1", gene_record false ["B"] []);
     ("2", gene_record false ["C"] [])].

(** The search for X finds a discontinued record first, then a live one
    that neither is called X nor lists X as a synonym. *)
Definition records_fallback : list (string * Element) :=
  [("10", gene_record true ["OLD"] []);
   ("20", gene_record false ["Y"] ["Z"])].
Definition remote_fallback : Remote :=
  table_remote [("X", ["10"; "20"])] records_fallback.

(** A record the loop takes for the symbol itself, or for one of its
    aliases: the discontinuation test comes first. *)
Definition exact_match (gene : string) (root : Element) : bool :=
  negb (is_discontinued root) && gene_eq gene (official_symbol_of root).

Definition alias_match (gene : string) (root : Element) : bool :=
  negb (is_discontinued root) && gene_in gene (gene_aliases_of root).

(** The search for [gene] and the records of its candidates, as the
    remote serves them throughout. *)
Definition serves (remote : Remote) (gene : string) (ids_list : list string)
    (record_of : string -> Element) : Prop :=
  answers remote (ESearch gene 25 "relevance") (BodyJson (Some ids_list)) /\
  forall gene_id, In gene_id ids_list ->
    answers remote (EFetch gene_id) (BodyXml (record_of gene_id)).

(** The record a table holds for an identifier. *)
Definition lookup_record (records : list (string * Element)) (gene_id : string)
  : Element :=
  match List.find (fun p => String.eqb (fst p) gene_id) records with
  | Some p => snd p
  | None => Elem "" None []
  end.

(** X has three live candidates: the first lists X as a synonym, the
    second is called X, the third lists X as a synonym again. *)
Definition records_ranked : list (string * Element) :=
  [("10", gene_record false ["Y"] ["X"]);
   ("20", gene_record false ["X"] []);
   ("30", gene_record false ["Z"] ["X"])].
Definition remote_ranked : Remote :=
  table_remote [("X", ["10"; "20"; "30"])] records_ranked.

(** The top candidate of X is called X but is discontinued; the second
    is live and lists X as a synonym. *)
Definition records_retired : list (string * Element) :=
  [("10", gene_record true ["X"] []);
   ("20", gene_record false ["Y"] ["X"])].
Definition remote_retired : Remote :=
  table_remote [("X", ["10"; "20"])] records_retired.

(** The top candidate of X lists X as a synonym but is discontinued; the
    second and the third are live and list X as a synonym. *)
Definition records_alias : list (string * Element) :=
  [("10", gene_record true ["W"] ["X"]);
   ("20", gene_record false ["Y"] ["X"]);
   ("30", gene_record false ["Z"] ["X"])].
Definition remote_alias : Remote :=
  table_remote [("X", ["10"; "20"; "30"])] records_alias.

(** The first two requests are answered, then the service is down. *)
Definition remote_outage : Remote :=
  fun n rq =>
    match n with
    | 0%nat => ok_json ["1"]
    | 1%nat => ok_xml (gene_record false ["A"] [])
    | _ => GetRaises (RequestException "connection refused")
    end.

(** The pair the assignment of line 222 is made from, if the body gets
    that far. *)
Definition resolved {A} (o : Outcome (option A)) : option A :=
  match o with
  | Ok (Some r) => Some r
  | _ => None
  end.

(** The outcome of a computation does not depend on the state it starts
    from; and the same for what a function reads off the outcome. *)
Definition stateless {A} (m : M A) : Prop :=
  forall s t, snd (m s) = snd (m t).

Definition agree_on {A B} (f : Outcome A -> B) (m : M A) : Prop :=
  forall s t, f (snd (m s)) = f (snd (m t)).

(** What the run has decided so far: no key of the dictionary is listed
    as unresolved, and both hold symbols of [done] only. *)
Definition decided (done : list string) (s : State) : Prop :=
  (forall g, is_Some (gene_id_dict s !! g) -> In g done) /\
  (forall g, In g (unresolved s) -> In g done) /\
  (forall g, is_Some (gene_id_dict s !! g) -> ~ In g (unresolved s)).

(** What the resolution of a symbol comes to when nothing was run before
    it. *)
Definition resolution (remote : Remote) (gene : string)
  : option (string * list string) :=
  resolved (snd (candidates remote gene init_state)).

(** Every key of the dictionary is a symbol that resolves, every symbol
    listed as unresolved is one that does not. *)
Definition consistent (remote : Remote) (s : State) : Prop :=
  forall g,
    (is_Some (gene_id_dict s !! g) -> is_Some (resolution remote g)) /\
    (In g (unresolved s) -> resolution remote g = None).

(** The service is down for the first two requests, then answers every
    search with one identifier. *)
Definition remote_recovering : Remote :=
  fun n rq =>
    match n with
    | 0%nat => GetRaises (RequestException "timed out")
    | 1%nat => GetReturns {| status_code := 503; body := BodyText |}
    | _ => ok_json ["7157"]
    end.

(** TP53 has one live candidate, whose official symbol is another name. *)
Definition remote_renamed : Remote :=
  table_remote [("TP53", ["7157"])]
    [("7157", gene_record false ["P53"] [])].

(** The candidate loop as a function of the records alone: what the
    loop of lines 154-214 leaves in [gene_id] and [candidate_gene_id]
    when every record is fetched without failure. *)
Fixpoint scan (gene : string) (record_of : string -> Element)
    (ids : list string) (gene_id : string) (candidate_gene_id : list string)
  : string * list string :=
  match ids with
  | [] => (gene_id, candidate_gene_id)
  | check_id :: rest =>
      if is_discontinued (record_of check_id)
      then scan gene record_of rest gene_id candidate_gene_id
      else if gene_eq gene (official_symbol_of (record_of check_id))
      then (check_id, [])
      else if gene_in gene (gene_aliases_of (record_of check_id))
      then scan gene record_of rest gene_id (candidate_gene_id ++ [check_id])
      else scan gene record_of rest gene_id candidate_gene_id
  end.

(** The identifier line 222 stores for a resolved symbol. *)
Definition stored (p : string * list string) : string :=
  final_gene_id (fst p) (snd p).


(** Once the name [check_gene_id] is bound it stays bound. *)
Definition keeps_bound (s s' : State) : Prop :=
  is_Some (check_gene_id s) -> is_Some (check_gene_id s').

(** * Descriptive records for the resolved identifiers (id_to_info.py)

    The second script reads the dictionary the first one wrote and
    fetches, for every entry, the record of the identifier. Its
    [call_efetch] is the one of the first script; the request counter
    and the trace are kept in a [State], of which it uses nothing else. *)

Module IdToInfo.

(** [check_item] *)
Definition check_item (item : option Element) : option string :=
  match item with
  | None => Some "NaN"
  | Some e => text_of e
  end.

(** The value stored under a gene identifier (lines 102-108). [None] is
    Python's [None], the text of an element without text. *)
Record GeneInfo : Type := mkGeneInfo {
  official_symbol : option string;
  description : option string;
  gene_type : string;
  summary_info : option string;
  gene_aliases : list (option string)
}.

Inductive InfoLog : Type :=
| InfoCount (n : nat)
| InfoOk (gene_name gene_id : string)
| InfoFailed (gene_name gene_id : string) (e : exn).

Record InfoState : Type := mkInfoState {
  net : State;                                    (* clock and trace *)
  response : option Response;                     (* None: the name is unbound *)
  gene_info_dict : gmap string GeneInfo;
  log_file : list InfoLog;
  genes_xml : list (string * string * Body);      (* ./genes_xml/NAME__ID.xml *)
  failed_genes_id : list (string * string);       (* failed_genes_id.txt *)
  stdout : list Body;                             (* print(response.text) *)
  num : Z;
  genes_info_json : option (gmap string GeneInfo) (* ./data/genes_info.json *)
}.

Definition desc_path : string * list string :=
  ("Entrezgene_gene", ["Gene-ref"; "Gene-ref_desc"]).
Definition type_path : string * list string := ("Entrezgene_type", []).
Definition summary_path : string * list string := ("Entrezgene_summary", []).

Section Script.

Variable remote : Remote.

(** [elem.attrib.get("value")]: the elements of the first script carry
    no attributes, so the attribute is read through this function. *)
Variable attrib_value : Element -> option string.

(** Lines 82-108: the fields read off the parsed record. *)
Definition extract (root : Element) : Outcome GeneInfo :=
  match find locus_path root with
  | None => Raise (OtherError "AttributeError")   (* None.text *)
  | Some locus =>
      let official_symbol := text_of locus in
      let gene_aliases := texts (findall syn_path root) in
      match
        match find type_path root with
        | None => Ok "NaN"
        | Some t =>
            match attrib_value t with
            | Some v => Ok v
            | None => Raise (KeyError "value")
            end
        end
      with
      | Raise e => Raise e
      | Ok gene_type =>
          let description := check_item (find desc_path root) in
          let gene_summary := check_item (find summary_path root) in
          Ok (mkGeneInfo official_symbol description gene_type
                gene_summary gene_aliases)
      end
  end.

(** Lines 75-112: the body of the [try]. *)
Definition try_body (gene_name gene_id : string) (st : InfoState)
  : InfoState * Outcome unit :=
  match call_efetch remote gene_id (net st) with
  | (n, Raise e) =>
      (mkInfoState n (response st) (gene_info_dict st) (log_file st)
         (genes_xml st) (failed_genes_id st) (stdout st) (num st)
         (genes_info_json st), Raise e)
  | (n, Ok r) =>
      let written := genes_xml st ++ [(gene_name, gene_id, body r)] in
      match body r with
      | BodyXml root =>
          match extract root with
          | Ok info =>
              (mkInfoState n (Some r) (<[gene_id := info]> (gene_info_dict st))
                 (log_file st ++ [InfoOk gene_name gene_id])
                 written (failed_genes_id st) (stdout st) (num st)
                 (genes_info_json st), Ok tt)
          | Raise e =>
              (mkInfoState n (Some r) (gene_info_dict st) (log_file st)
                 written (failed_genes_id st) (stdout st) (num st)
                 (genes_info_json st), Raise e)
          end
      | _ =>
          (mkInfoState n (Some r) (gene_info_dict st) (log_file st)
             written (failed_genes_id st) (stdout st) (num st)
             (genes_info_json st), Raise ParseError)
      end
  end.

(** Lines 114-121: the handler; [print(response.text)] reads the
    module-level name [response]. *)
Definition except_handler (gene_name gene_id : string) (e : exn)
    (st : InfoState) : InfoState * Outcome unit :=
  let logged := log_file st ++ [InfoFailed gene_name gene_id e] in
  match response st with
  | None =>
      (mkInfoState (net st) (response st) (gene_info_dict st) logged
         (genes_xml st) (failed_genes_id st) (stdout st) (num st)
         (genes_info_json st), Raise (NameError "response"))
  | Some r =>
      (mkInfoState (net st) (response st) (gene_info_dict st) logged
         (genes_xml st) (failed_genes_id st ++ [(gene_name, gene_id)])
         (stdout st ++ [body r]) (num st) (genes_info_json st), Ok tt)
  end.

(** Line 123: [num += 1] *)
Definition next_num (st : InfoState) : InfoState :=
  mkInfoState (net st) (response st) (gene_info_dict st) (log_file st)
    (genes_xml st) (failed_genes_id st) (stdout st) (num st + 1)
    (genes_info_json st).

(** Lines 70-123: the loop; an exception the handler itself raises
    leaves the loop and the script. *)
Fixpoint loop (nums_limit : Z) (items : list (string * string))
    (st : InfoState) : InfoState * Outcome unit :=
  match items with
  | [] => (st, Ok tt)
  | (gene_name, gene_id) :: rest =>
      if num st =? nums_limit then (st, Ok tt)               (* break *)
      else
        match try_body gene_name gene_id st with
        | (st1, Ok _) => loop nums_limit rest (next_num st1)
        | (st1, Raise e) =>
            match except_handler gene_name gene_id e st1 with
            | (st2, Ok _) => loop nums_limit rest (next_num st2)
            | (st2, Raise e') => (st2, Raise e')
            end
        end
  end.

(** Lines 64-68. *)
Definition start (items : list (string * string)) : InfoState :=
  mkInfoState init_state None ∅ [InfoCount (length items)] [] [] [] 1 None.

(** The script: the items of [gene_to_id.json] in file order. The
    dictionary is written out only when the loop is left normally. *)
Definition main (items : list (string * string)) : InfoState * Outcome unit :=
  match loop 100000 items (start items) with
  | (st, Ok _) =>
      (mkInfoState (net st) (response st) (gene_info_dict st) (log_file st)
         (genes_xml st) (failed_genes_id st) (stdout st) (num st)
         (Some (gene_info_dict st)), Ok tt)
  | (st, Raise e) => (st, Raise e)
  end.

End Script.

End IdToInfo.

(** The first request is answered with the record of TP53, then the
    service is down. *)
Definition remote_one_answer : Remote :=
  fun n rq =>
    match n with
    | 0%nat => ok_xml (gene_record false ["TP53"] ["P53"])
    | _ => GetRaises (RequestException "connection refused")
    end.

(** Every fetch is answered with a record that has no locus node. *)
Definition remote_nameless : Remote :=
  fun _ _ => ok_xml (gene_record false [] ["P53"]).

(** No element carries a [value] attribute. *)
Definition no_attrib : Element -> option string := fun _ => None.

(** * The gene columns of the expression matrix (extract_data.py) *)

Module ExtractData.

(** [load_gene_ids]: [gene_ensg_items] are the items of
    [gene_ensg_id_dict.json] in file order, [gene_to_id] is the
    dictionary the first script wrote. The result is [gene_ids] and
    [id_to_gene]. *)
Definition load_gene_ids (gene_ensg_items : list (string * string))
    (gene_to_id : gmap string string)
  : list string * gmap string string :=
  let gene_id_data :=
    List.filter (fun kv => bool_decide (is_Some (gene_to_id !! fst kv)))
                gene_ensg_items in
  let id_to_gene :=
    fold_left (fun m kv => <[snd kv := fst kv]> m) gene_id_data ∅ in
  let gene_ids := map snd gene_id_data in
  (gene_ids, id_to_gene).

(** Line 100: [[id_to_gene[ensg] for ensg in gene_ids]]; [None] stands
    for a [KeyError]. *)
Definition renamed_columns (gene_ids : list string)
    (id_to_gene : gmap string string) : list (option string) :=
  map (fun ensg => id_to_gene !! ensg) gene_ids.

End ExtractData.
(** * Properties *)

(** ** The monad and the footprints *)

#[global] Instance silent_frame : Frame silent.
Proof.
  split.
  - intros s. unfold silent. tauto.
  - unfold silent. intros a b c Hab Hbc.
    destruct Hab as (?&?&?&?&?&?&?&?), Hbc as (?&?&?&?&?&?&?&?).
    repeat split; congruence.
Qed.

#[global] Instance scans_frame : Frame scans.
Proof.
  split.
  - intros s. unfold scans. repeat split; reflexivity.
  - unfold scans. intros a b c Hab Hbc.
    destruct Hab as (?&?&?&?&?&?), Hbc as (?&?&?&?&?&?).
    repeat split; try congruence; etrans; eassumption.
Qed.

Section Steps.

Context {Rel : State -> State -> Prop} `{!Frame Rel}.

Lemma steps_ret {A} (a : A) : steps Rel (ret a).
Proof. intros s. apply frame_refl. Qed.

Lemma steps_raise {A} e : steps Rel (@raise A e).
Proof. intros s. apply frame_refl. Qed.

Lemma steps_bind {A B} (m : M A) (k : A -> M B) :
  steps Rel m -> (forall a, steps Rel (k a)) -> steps Rel (bind m k).
Proof.
  intros Hm Hk s. unfold bind. specialize (Hm s).
  destruct (m s) as [s1 [a|e]]; simpl in *.
  - eapply frame_trans; [exact Hm | apply Hk].
  - exact Hm.
Qed.

Lemma steps_retry_from {A} w p (fn : M A) n :
  steps Rel (emit (EvSleep w)) -> steps Rel fn ->
  steps Rel (retry_from w p fn n).
Proof.
  intros Hw Hfn. induction n as [|n IH]; intros s; simpl;
    specialize (Hfn s); destruct (fn s) as [s1 [a|e]]; simpl in *; auto;
    destruct (p e); simpl; auto.
  eapply frame_trans; [exact Hfn |].
  apply (steps_bind (emit (EvSleep w)) (fun _ => retry_from w p fn n)); auto.
Qed.

End Steps.

Lemma search_calls_app tr ev :
  search_calls (tr ++ [ev]) = search_calls tr ++ search_calls [ev].
Proof. unfold search_calls. apply flat_map_app. Qed.

Lemma fetch_calls_app tr ev :
  fetch_calls (tr ++ [ev]) = fetch_calls tr ++ fetch_calls [ev].
Proof. unfold fetch_calls. apply flat_map_app. Qed.

Lemma prefix_snoc {A} (l : list A) x : l `prefix_of` l ++ [x].
Proof. exists [x]. reflexivity. Qed.

Create HintDb footprint.
#[local] Hint Resolve prefix_snoc : footprint.
#[local] Hint Extern 1 (_ `prefix_of` _) => reflexivity : footprint.

(** Closes the footprint goal of one primitive. *)
Ltac primitive :=
  intros ?s; cbn;
  rewrite ?search_calls_app, ?fetch_calls_app; cbn; rewrite ?app_nil_r;
  repeat split; auto with footprint.

Section ProgramFootprints.

Variable remote : Remote.

Lemma silent_http_call rq : steps silent (http_call remote rq).
Proof.
  unfold http_call, requests_get, raise_for_status.
  repeat (apply steps_bind; [|intros ?]).
  - unfold silent; primitive.
  - unfold silent; primitive.
  - destruct (remote _ rq); [apply steps_raise | apply steps_ret].
  - destruct (_ && _); [apply steps_raise | apply steps_ret].
  - apply steps_ret.
Qed.

Lemma silent_retried rq n :
  steps silent (retry n 3 isinstance_RequestException (http_call remote rq)).
Proof.
  unfold retry. apply steps_retry_from.
  - unfold silent; primitive.
  - apply silent_http_call.
Qed.

Lemma calls_call_esearch gene max_uids sort_uids :
  steps (calls (ESearch gene max_uids sort_uids))
        (call_esearch remote gene max_uids sort_uids).
Proof.
  intros s. unfold call_esearch, bind at 1. cbn [emit modify].
  match goal with |- context [retry ?n ?w ?p ?f ?s1] =>
    pose proof (silent_retried (ESearch gene max_uids sort_uids) n s1) as H
  end.
  unfold silent, calls in *. cbn in H.
  rewrite !search_calls_app, !fetch_calls_app in H. exact H.
Qed.

Lemma calls_call_efetch gene_id :
  steps (calls (EFetch gene_id)) (call_efetch remote gene_id).
Proof.
  intros s. unfold call_efetch, bind at 1. cbn [emit modify].
  match goal with |- context [retry ?n ?w ?p ?f ?s1] =>
    pose proof (silent_retried (EFetch gene_id) n s1) as H
  end.
  unfold silent, calls in *. cbn in H.
  rewrite !search_calls_app, !fetch_calls_app in H. exact H.
Qed.

Lemma scans_call_efetch gene_id : steps scans (call_efetch remote gene_id).
Proof.
  intros s. destruct (calls_call_efetch gene_id s) as (?&?&Hl&?&?&Hd&Hs&?).
  cbn in Hs. rewrite app_nil_r in Hs.
  unfold scans. rewrite Hl, Hd. repeat split; auto.
Qed.

Lemma scans_fromstring r : steps scans (fromstring r).
Proof.
  unfold fromstring. destruct (body r); (apply steps_raise || apply steps_ret).
Qed.

Lemma scans_pick_official gene check_id o :
  steps scans (pick_official gene check_id o).
Proof.
  unfold pick_official. destruct o as [|o [|o' os]].
  - apply steps_bind; [unfold scans; primitive | intros; apply steps_ret].
  - apply steps_ret.
  - apply steps_bind; [unfold scans; primitive | intros; apply steps_ret].
Qed.

Lemma scans_for_check_gene_id gene ids :
  forall gene_id candidate_gene_id,
    steps scans (for_check_gene_id remote gene ids gene_id candidate_gene_id).
Proof.
  induction ids as [|check_id rest IH]; intros gene_id cands; simpl.
  - apply steps_ret.
  - apply steps_bind; [unfold scans; primitive | intros _].
    apply steps_bind; [apply scans_call_efetch | intros response2].
    apply steps_bind; [apply scans_fromstring | intros root].
    destruct (find discontinue_date_path root).
    + apply steps_bind; [unfold scans; primitive | intros _].
      apply steps_bind; [unfold scans; primitive | intros _].
      apply IH.
    + apply steps_bind; [unfold scans; primitive | intros _].
      apply steps_bind; [apply scans_pick_official | intros official].
      destruct (gene_eq gene official); [apply steps_ret |].
      destruct (gene_in gene _); apply IH.
Qed.

End ProgramFootprints.

(** ** One iteration of the main loop *)

Lemma bind_inv {A B} (m : M A) (k : A -> M B) s s' o :
  bind m k s = (s', o) ->
  (exists s1 a, m s = (s1, Ok a) /\ k a s1 = (s', o)) \/
  (exists e, m s = (s', Raise e) /\ o = Raise e).
Proof.
  unfold bind. destruct (m s) as [s1 [a|e]]; intros H.
  - left. eauto.
  - right. inversion H; subst. eauto.
Qed.

(** Splits a run of [bind m k] into the run of [m] and the rest. *)
Ltac split_bind H s1 a E :=
  apply bind_inv in H;
  destruct H as [(s1 & a & E & H) | (? & E & ->)].

Ltac pair_inv H := inversion H; subst; clear H.

Ltac simpl_state :=
  cbn [fst snd clock trace check_gene_id gene_id_dict log_file genes_None
       genes_NCBI_Discontinued_1 genes_NCBI_Discontinued_2].

Ltac simpl_state_in H :=
  cbn [fst snd clock trace check_gene_id gene_id_dict log_file genes_None
       genes_NCBI_Discontinued_1 genes_NCBI_Discontinued_2] in H.

(** Runs a straight line of primitives in a hypothesis. *)
Ltac run_prims H :=
  unfold bind, ret, raise, log_write, write_genes_None, write_Discontinued_1,
    write_Discontinued_2, dict_set, bind_check_gene_id, emit, modify in H;
  cbn [fst snd clock trace check_gene_id gene_id_dict log_file genes_None
       genes_NCBI_Discontinued_1 genes_NCBI_Discontinued_2] in H.

Section Iteration.

Variable remote : Remote.

(** What [candidates] leaves behind, by the way it ends. *)
Lemma candidates_footprint gene s s' o :
  candidates remote gene s = (s', o) ->
  search_calls (trace s') = search_calls (trace s) ++ [gene] /\
  log_file s `prefix_of` log_file s' /\
  gene_id_dict s' = gene_id_dict s /\
  match o with
  | Ok None =>
      (genes_None s' = genes_None s ++ [gene] /\
       genes_NCBI_Discontinued_1 s' = genes_NCBI_Discontinued_1 s) \/
      (exists gene_id,
         genes_None s' = genes_None s /\
         genes_NCBI_Discontinued_1 s' =
           genes_NCBI_Discontinued_1 s ++ [(gene, gene_id)])
  | _ =>
      genes_None s' = genes_None s /\
      genes_NCBI_Discontinued_1 s' = genes_NCBI_Discontinued_1 s
  end.
Proof.
  unfold candidates. intros H.
  pose proof (calls_call_esearch remote gene 25 "relevance" s) as Hs.
  split_bind H s1 response1 E1; rewrite E1 in Hs; unfold calls in Hs; cbn in Hs;
    destruct Hs as (Hc & Hd & Hl & Hn & H1 & H2 & Hsc & Hfc).
  2:{ rewrite Hl, Hd, Hn, H1. auto. }
  assert (Hj : forall t t' x, json_idlist response1 t = (t', x) -> t' = t).
  { unfold json_idlist. intros t t' x.
    destruct (body response1) as [[ids|]| |]; unfold ret, raise; congruence. }
  split_bind H s2 ids_list E2; apply Hj in E2; [subst s2 | subst s'].
  2:{ rewrite Hl, Hd, Hn, H1. auto. }
  destruct ids_list as [|gene_id [|second more]].
  - run_prims H. pair_inv H. simpl_state.
    rewrite Hl, Hd, Hn, H1. repeat split; auto with footprint.
  - pose proof (calls_call_efetch remote gene_id s1) as Hf.
    split_bind H s3 response2 E3; rewrite E3 in Hf; unfold calls in Hf; cbn in Hf;
      destruct Hf as (Hc' & Hd' & Hl' & Hn' & H1' & H2' & Hsc' & Hfc');
      rewrite app_nil_r in Hsc'.
    2:{ rewrite Hsc', Hl', Hd', Hn', H1', Hl, Hd, Hn, H1. auto. }
    pose proof (scans_fromstring response2 s3) as Hx.
    split_bind H s4 root E4; rewrite E4 in Hx; unfold scans in Hx; cbn in Hx;
      destruct Hx as (Hxd & Hxn & Hx1 & Hxs & Hxl & _).
    2:{ rewrite Hxs, Hxd, Hxn, Hx1, Hsc', Hd', Hn', H1', Hd, Hn, H1.
        repeat split; auto. rewrite <- Hl, <- Hl'. exact Hxl. }
    assert (Hpre : log_file s `prefix_of` log_file s4)
      by (rewrite <- Hl, <- Hl'; exact Hxl).
    destruct (find discontinue_date_path root).
    + unfold read_check_gene_id in H. unfold bind at 1 in H.
      destruct (check_gene_id s4) as [shown|].
      * run_prims H. pair_inv H. simpl_state.
        rewrite Hxs, Hxd, Hxn, Hx1, Hsc', Hd', Hn', H1', Hd, Hn, H1.
        repeat split; auto.
        -- etrans; [exact Hpre | apply prefix_snoc].
        -- right. eauto.
      * pair_inv H.
        rewrite Hxs, Hxd, Hxn, Hx1, Hsc', Hd', Hn', H1', Hd, Hn, H1. auto.
    + run_prims H. pair_inv H. simpl_state.
      rewrite Hxs, Hxd, Hxn, Hx1, Hsc', Hd', Hn', H1', Hd, Hn, H1.
      repeat split; auto. etrans; [exact Hpre | apply prefix_snoc].
  - unfold bind at 1 in H. cbn [log_write modify] in H.
    match type of H with context [for_check_gene_id _ _ ?l ?g ?c] =>
      pose proof (scans_for_check_gene_id remote gene l g c) as Hloop
    end.
    split_bind H s3 r E3;
      match type of E3 with _ ?t = _ => specialize (Hloop t) end;
      rewrite E3 in Hloop; unfold scans in Hloop; simpl_state_in Hloop;
      destruct Hloop as (Hxd & Hxn & Hx1 & Hxs & Hxl & _).
    + pair_inv H.
      rewrite Hxs, Hxd, Hxn, Hx1, Hd, Hn, H1, Hsc. repeat split; auto.
      etrans; [|exact Hxl]. rewrite Hl. apply prefix_snoc.
    + rewrite Hxs, Hxd, Hxn, Hx1, Hd, Hn, H1, Hsc. repeat split; auto.
      etrans; [|exact Hxl]. rewrite Hl. apply prefix_snoc.
Qed.

Lemma try_body_footprint gene s s' o :
  try_body remote gene s = (s', o) ->
  search_calls (trace s') = search_calls (trace s) ++ [gene] /\
  log_file s `prefix_of` log_file s' /\
  match o with
  | Ok _ => Settled gene s s'
  | Raise _ =>
      gene_id_dict s' = gene_id_dict s /\
      genes_None s' = genes_None s /\
      genes_NCBI_Discontinued_1 s' = genes_NCBI_Discontinued_1 s
  end.
Proof.
  unfold try_body. intros H.
  split_bind H s1 r E; apply candidates_footprint in E;
    destruct E as (Hs & Hl & Hd & Ho); [|auto].
  destruct r as [[gene_id cands]|].
  - destruct Ho as [Hn H1]. run_prims H. pair_inv H. simpl_state.
    repeat split; auto.
    + etrans; [exact Hl | apply prefix_snoc].
    + eapply settled_resolved; simpl_state; [rewrite Hd|..]; eauto.
  - pair_inv H. repeat split; auto.
    destruct Ho as [[Hn H1] | (gene_id & Hn & H1)].
    + apply settled_none; auto.
    + eapply settled_discontinued; eauto.
Qed.

(** When the body raises, the handler files the symbol under
    [genes_None.txt] and logs the cause; nothing else has moved. *)
Lemma iteration_raise gene s s1 e :
  try_body remote gene s = (s1, Raise e) ->
  log_file (iteration remote gene s) = log_file s1 ++ [LogFailed gene e] /\
  genes_None (iteration remote gene s) = genes_None s ++ [gene] /\
  gene_id_dict (iteration remote gene s) = gene_id_dict s /\
  genes_NCBI_Discontinued_1 (iteration remote gene s) =
    genes_NCBI_Discontinued_1 s.
Proof.
  intros H. unfold iteration. rewrite H.
  apply try_body_footprint in H. destruct H as (_ & _ & Hd & Hn & H1).
  cbn. rewrite Hd, Hn, H1. auto.
Qed.

Lemma iteration_settled gene s : Settled gene s (iteration remote gene s).
Proof.
  unfold iteration.
  destruct (try_body remote gene s) as [s1 [u|e]] eqn:E;
    apply try_body_footprint in E; destruct E as (_ & _ & H); [exact H|].
  destruct H as (Hd & Hn & H1). apply settled_none; cbn; congruence.
Qed.

Lemma iteration_search_calls gene s :
  search_calls (trace (iteration remote gene s)) =
  search_calls (trace s) ++ [gene].
Proof.
  unfold iteration.
  destruct (try_body remote gene s) as [s1 [u|e]] eqn:E;
    apply try_body_footprint in E; destruct E as (H & _); exact H.
Qed.

Lemma iteration_log gene s :
  log_file s `prefix_of` log_file (iteration remote gene s).
Proof.
  unfold iteration.
  destruct (try_body remote gene s) as [s1 [u|e]] eqn:E;
    apply try_body_footprint in E; destruct E as (_ & H & _); [exact H|].
  cbn. etrans; [exact H | apply prefix_snoc].
Qed.

Lemma iteration_genes_None gene s :
  genes_None s `prefix_of` genes_None (iteration remote gene s).
Proof.
  destruct (iteration_settled gene s) as [? _ -> _ | _ -> _ | ? _ -> _];
    auto with footprint.
Qed.

(** *** The whole loop *)

Lemma loop_app pre post s :
  loop remote (pre ++ post) s = loop remote post (loop remote pre s).
Proof. unfold loop. apply fold_left_app. Qed.

Lemma loop_cons gene rest s :
  loop remote (gene :: rest) s = loop remote rest (iteration remote gene s).
Proof. reflexivity. Qed.

Lemma loop_search_calls all_genes : forall s,
  search_calls (trace (loop remote all_genes s)) =
  search_calls (trace s) ++ all_genes.
Proof.
  induction all_genes as [|gene rest IH]; intros s.
  - symmetry. apply app_nil_r.
  - rewrite loop_cons, IH, iteration_search_calls, <- app_assoc.
    reflexivity.
Qed.

Lemma loop_log all_genes : forall s,
  log_file s `prefix_of` log_file (loop remote all_genes s).
Proof.
  induction all_genes as [|gene rest IH]; intros s; [reflexivity|].
  rewrite loop_cons. etrans; [apply (iteration_log gene) | apply IH].
Qed.

Lemma loop_genes_None all_genes : forall s,
  genes_None s `prefix_of` genes_None (loop remote all_genes s).
Proof.
  induction all_genes as [|gene rest IH]; intros s; [reflexivity|].
  rewrite loop_cons. etrans; [apply (iteration_genes_None gene) | apply IH].
Qed.

End Iteration.

(** ** Failures stay with their symbol *)

(** What the handler wrote is still there when the run ends. *)
Lemma failure_raised_is_filed (remote : Remote)
    (pre post : list string) (gene : string) (s1 : State) (e : exn) :
  try_body remote gene (loop remote pre (start (pre ++ gene :: post))) =
    (s1, Raise e) ->
  In (LogFailed gene e) (log_file (main remote (pre ++ gene :: post))) /\
  In gene (genes_None (main remote (pre ++ gene :: post))).
Proof.
  intros H. unfold main.
  set (s0 := loop remote pre (start (pre ++ gene :: post))) in *.
  assert (Hrun : loop remote (pre ++ gene :: post)
                   (start (pre ++ gene :: post)) =
                 loop remote post (iteration remote gene s0)).
  { rewrite loop_app, loop_cons. reflexivity. }
  destruct (iteration_raise remote gene s0 s1 e H) as (Hl & Hn & _).
  rewrite Hrun. split.
  - destruct (loop_log remote post (iteration remote gene s0)) as [k ->].
    rewrite Hl. apply in_or_app. left. apply in_or_app. right. left.
    reflexivity.
  - destruct (loop_genes_None remote post (iteration remote gene s0))
      as [k ->].
    rewrite Hn. apply in_or_app. left. apply in_or_app. right. left.
    reflexivity.
Qed.

(** C8: when the resolution of one symbol raises (exhausted retries, a
    parse failure, anything the handler catches), the cause is logged
    for that symbol, the symbol is filed as unresolved and not added to
    the dictionary, and the loop goes on: over the whole run
    [call_esearch] is called once for every input symbol, in input
    order. *)
Theorem failure_stays_with_its_symbol (remote : Remote)
    (pre post : list string) (gene : string) (s1 : State) (e : exn) :
  let all_genes := pre ++ gene :: post in
  let s0 := loop remote pre (start all_genes) in
  try_body remote gene s0 = (s1, Raise e) ->
  In (LogFailed gene e) (log_file (main remote all_genes)) /\
  In gene (genes_None (main remote all_genes)) /\
  gene_id_dict (iteration remote gene s0) = gene_id_dict s0 /\
  search_calls (trace (main remote all_genes)) = all_genes.
Proof.
  intros all_genes s0 H.
  destruct (failure_raised_is_filed remote pre post gene s1 e H)
    as (Hlog & Hnone).
  destruct (iteration_raise remote gene s0 s1 e H) as (_ & _ & Hd & _).
  repeat split; auto.
  unfold main. rewrite loop_search_calls. reflexivity.
Qed.

Lemma failure_stays_with_its_symbol_witness :
  In (LogFailed "BAD" JSONDecodeError)
     (log_file (main remote_bad_json ["TP53"; "BAD"; "X"])) /\
  In "BAD" (genes_None (main remote_bad_json ["TP53"; "BAD"; "X"])) /\
  gene_id_dict (iteration remote_bad_json "BAD"
                  (loop remote_bad_json ["TP53"] (start ["TP53"; "BAD"; "X"]))) =
  gene_id_dict (loop remote_bad_json ["TP53"] (start ["TP53"; "BAD"; "X"])) /\
  search_calls (trace (main remote_bad_json ["TP53"; "BAD"; "X"])) =
  ["TP53"; "BAD"; "X"].
Proof.
  eapply (failure_stays_with_its_symbol remote_bad_json ["TP53"] ["X"] "BAD"
            _ JSONDecodeError).
  vm_compute. reflexivity.
Defined.

(** ** The retry policy of the two client functions *)

Section Retry.

Variable remote : Remote.

Lemma http_call_run rq s :
  http_call remote rq s =
  (after_get rq s, attempt_outcome (remote (clock s) rq)).
Proof.
  unfold http_call, requests_get, raise_for_status, attempt_outcome,
    status_ok, after_get, bind, tick, emit, modify. simpl_state.
  destruct (remote (clock s) rq) as [e|r]; [reflexivity|].
  unfold ret. destruct (_ && _); reflexivity.
Qed.

Lemma transient_outcome a :
  transient a = true ->
  exists e, attempt_outcome a = Raise e /\
            isinstance_RequestException e = true.
Proof.
  destruct a as [e|r]; simpl; intros H.
  - eauto.
  - apply negb_true_iff in H. rewrite H. eauto.
Qed.

Lemma waited_clock rq j : forall s, clock (waited rq j s) = (clock s + j)%nat.
Proof.
  induction j as [|j IH]; intros s; simpl.
  - lia.
  - rewrite IH. cbn. lia.
Qed.

Lemma waited_trace rq j : forall s,
  trace (after_get rq (waited rq j s)) = trace s ++ wire_of rq (S j).
Proof.
  induction j as [|j IH]; intros s.
  - reflexivity.
  - change (waited rq (S j) s)
      with (waited rq j (after_sleep (after_get rq s))).
    rewrite IH. cbn [after_sleep after_get emit modify fst trace].
    rewrite <- !app_assoc. reflexivity.
Qed.

(** While the attempts keep failing in the retried class, the decorator
    goes from one attempt to the next. *)
Lemma retry_from_waits rq j : forall further s,
  (j <= further)%nat ->
  (forall k, (k < j)%nat -> transient (remote (clock s + k)%nat rq) = true) ->
  retry_from 3 isinstance_RequestException (http_call remote rq) further s =
  retry_from 3 isinstance_RequestException (http_call remote rq)
    (further - j) (waited rq j s).
Proof.
  induction j as [|j IH]; intros further s Hle Htr.
  - rewrite Nat.sub_0_r. reflexivity.
  - destruct further as [|further]; [lia|].
    cbn [retry_from waited]. rewrite http_call_run.
    destruct (transient_outcome (remote (clock s) rq)) as (e & -> & ->).
    { rewrite <- (Nat.add_0_r (clock s)). apply Htr. lia. }
    change ((emit (EvSleep 3) ;;; retry_from 3 isinstance_RequestException
               (http_call remote rq) further) (after_get rq s))
      with (retry_from 3 isinstance_RequestException
              (http_call remote rq) further (after_sleep (after_get rq s))).
    rewrite IH; [reflexivity | lia |].
    intros k Hk. cbn [after_sleep after_get emit modify fst clock].
    replace (S (clock s) + k)%nat with (clock s + S k)%nat by lia.
    apply Htr. lia.
Qed.

Lemma retry_exhausted rq n s :
  (forall k, (k < S n)%nat -> transient (remote (clock s + k)%nat rq) = true) ->
  retry_from 3 isinstance_RequestException (http_call remote rq) n s =
  (after_get rq (waited rq n s), Raise RetryError).
Proof.
  intros Htr. rewrite (retry_from_waits rq n n s); [|lia|auto with lia].
  rewrite Nat.sub_diag. cbn [retry_from]. rewrite http_call_run.
  destruct (transient_outcome (remote (clock (waited rq n s)) rq))
    as (e & -> & ->); [|reflexivity].
  rewrite waited_clock. apply Htr. lia.
Qed.

Lemma retry_propagates rq n j e s :
  (j <= n)%nat ->
  (forall k, (k < j)%nat -> transient (remote (clock s + k)%nat rq) = true) ->
  remote (clock s + j)%nat rq = GetRaises e ->
  isinstance_RequestException e = false ->
  retry_from 3 isinstance_RequestException (http_call remote rq) n s =
  (after_get rq (waited rq j s), Raise e).
Proof.
  intros Hle Htr Hj He. rewrite (retry_from_waits rq j n s); auto.
  assert (Hrun : http_call remote rq (waited rq j s) =
                 (after_get rq (waited rq j s), Raise e)).
  { rewrite http_call_run, waited_clock, Hj. reflexivity. }
  destruct (n - j)%nat; cbn [retry_from]; rewrite Hrun, He; reflexivity.
Qed.

Lemma call_of_unfold rq s :
  call_of remote rq s =
  retry_from 3 isinstance_RequestException (http_call remote rq) 5
    (fst (emit (EvCall rq) s)).
Proof. destruct rq; reflexivity. Qed.

End Retry.

(** C5: a call of [call_esearch] or [call_efetch] whose six attempts all
    fail with a [requests.RequestException] ends in tenacity's
    [RetryError] after exactly six requests with a wait of three seconds
    between them; an exception of any other class, at whichever attempt
    it occurs, leaves the call at once with no further request. *)
Theorem retry_policy (remote : Remote) (rq : Request) (s : State) :
  ((forall k, (k < 6)%nat ->
      transient (remote (clock s + k)%nat rq) = true) ->
   exists s',
     call_of remote rq s = (s', Raise RetryError) /\
     trace s' = trace s ++
       [EvCall rq;
        EvGet rq; EvSleep 3; EvGet rq; EvSleep 3; EvGet rq; EvSleep 3;
        EvGet rq; EvSleep 3; EvGet rq; EvSleep 3; EvGet rq] /\
     clock s' = (clock s + 6)%nat) /\
  (forall j e,
     (j < 6)%nat ->
     (forall k, (k < j)%nat ->
        transient (remote (clock s + k)%nat rq) = true) ->
     remote (clock s + j)%nat rq = GetRaises e ->
     isinstance_RequestException e = false ->
     exists s',
       call_of remote rq s = (s', Raise e) /\
       trace s' = trace s ++ EvCall rq :: wire_of rq (S j) /\
       clock s' = (clock s + S j)%nat).
Proof.
  split.
  - intros Htr. eexists. rewrite call_of_unfold.
    rewrite retry_exhausted by exact Htr.
    split; [reflexivity|]. split.
    + rewrite waited_trace. cbn. rewrite <- app_assoc. reflexivity.
    + cbn [after_get clock]. rewrite waited_clock. cbn. lia.
  - intros j e Hj Htr Hat He. eexists. rewrite call_of_unfold.
    rewrite (retry_propagates remote rq 5 j e) by (auto; lia).
    split; [reflexivity|]. split.
    + rewrite waited_trace. cbn [emit modify fst trace].
      rewrite <- app_assoc. reflexivity.
    + cbn [after_get clock]. rewrite waited_clock. cbn. lia.
Qed.

Lemma retry_policy_witness :
  (exists s',
     call_of dead_remote (ESearch "TP53" 25 "relevance") init_state =
       (s', Raise RetryError) /\
     trace s' =
       trace init_state ++
       [EvCall (ESearch "TP53" 25 "relevance");
        EvGet (ESearch "TP53" 25 "relevance"); EvSleep 3;
        EvGet (ESearch "TP53" 25 "relevance"); EvSleep 3;
        EvGet (ESearch "TP53" 25 "relevance"); EvSleep 3;
        EvGet (ESearch "TP53" 25 "relevance"); EvSleep 3;
        EvGet (ESearch "TP53" 25 "relevance"); EvSleep 3;
        EvGet (ESearch "TP53" 25 "relevance")] /\
     clock s' = (clock init_state + 6)%nat) /\
  (exists s',
     call_of broken_remote (EFetch "7157") init_state =
       (s', Raise (OtherError "misconfigured")) /\
     trace s' =
       trace init_state ++
       EvCall (EFetch "7157") :: wire_of (EFetch "7157") 1 /\
     clock s' = (clock init_state + 1)%nat).
Proof.
  split.
  - refine (proj1 (retry_policy dead_remote (ESearch "TP53" 25 "relevance")
                     init_state) _).
    intros k Hk. reflexivity.
  - refine (proj2 (retry_policy broken_remote (EFetch "7157") init_state)
              0%nat (OtherError "misconfigured") _ _ _ _).
    + lia.
    + intros k Hk. lia.
    + reflexivity.
    + reflexivity.
Defined.

(** ** The name [check_gene_id] across iterations *)

Lemma has_LogMulti_app l k :
  has_LogMulti (l ++ k) = has_LogMulti l || has_LogMulti k.
Proof. unfold has_LogMulti. apply existsb_app. Qed.

Lemma has_LogMulti_prefix l l' :
  l `prefix_of` l' -> has_LogMulti l = true -> has_LogMulti l' = true.
Proof.
  intros [k ->] H. rewrite has_LogMulti_app, H. reflexivity.
Qed.

Lemma json_idlist_state r t t' x : json_idlist r t = (t', x) -> t' = t.
Proof.
  unfold json_idlist.
  destruct (body r) as [[ids|]| |]; unfold ret, raise; congruence.
Qed.

Lemma fromstring_state r t t' x : fromstring r t = (t', x) -> t' = t.
Proof.
  unfold fromstring. destruct (body r); unfold ret, raise; congruence.
Qed.

Section CheckGeneId.

Variable remote : Remote.

(** The name is bound nowhere but in the candidate loop, which is
    entered right after the line logged as [LogMulti]. *)
Lemma candidates_check gene s s' o :
  candidates remote gene s = (s', o) ->
  check_gene_id s' = check_gene_id s \/ has_LogMulti (log_file s') = true.
Proof.
  unfold candidates. intros H.
  pose proof (calls_call_esearch remote gene 25 "relevance" s) as Hs.
  split_bind H s1 response1 E1; rewrite E1 in Hs;
    destruct Hs as (Hc & _); simpl_state_in Hc; [|auto].
  split_bind H s2 ids_list E2; apply json_idlist_state in E2;
    [subst s2 | subst s'; auto].
  destruct ids_list as [|gene_id [|second more]].
  - run_prims H. pair_inv H. auto.
  - pose proof (calls_call_efetch remote gene_id s1) as Hf.
    split_bind H s3 response2 E3; rewrite E3 in Hf;
      destruct Hf as (Hc' & _); simpl_state_in Hc'; [|left; congruence].
    split_bind H s4 root E4; apply fromstring_state in E4;
      [subst s4 | subst s'; left; congruence].
    destruct (find discontinue_date_path root).
    + unfold read_check_gene_id in H. unfold bind at 1 in H.
      destruct (check_gene_id s3) as [shown|] eqn:Hcheck; [run_prims H|];
        pair_inv H; simpl_state; left; congruence.
    + run_prims H. pair_inv H. simpl_state. left. congruence.
  - right. unfold bind at 1 in H. cbn [log_write modify] in H.
    match type of H with context [for_check_gene_id _ _ ?l ?g ?c] =>
      pose proof (scans_for_check_gene_id remote gene l g c) as Hloop
    end.
    assert (Hpre : forall t,
      scans (fst (log_write (LogMulti gene (gene_id :: second :: more)) s1)) t ->
      has_LogMulti (log_file t) = true).
    { intros t (_ & _ & _ & _ & Hl & _).
      eapply has_LogMulti_prefix; [exact Hl|].
      cbn [log_write modify fst log_file].
      rewrite has_LogMulti_app. cbn. apply orb_true_r. }
    split_bind H s3 r E3;
      match type of E3 with _ ?t = _ => specialize (Hloop t) end;
      rewrite E3 in Hloop; simpl_state_in Hloop.
    + pair_inv H. apply Hpre. exact Hloop.
    + apply Hpre. exact Hloop.
Qed.

Lemma iteration_check gene s :
  check_gene_id (iteration remote gene s) = check_gene_id s \/
  has_LogMulti (log_file (iteration remote gene s)) = true.
Proof.
  unfold iteration, try_body.
  destruct (bind _ _ s) as [s' o] eqn:H.
  split_bind H s1 r E; apply candidates_check in E.
  - destruct r as [[gene_id cands]|].
    + run_prims H. pair_inv H. simpl_state.
      rewrite has_LogMulti_app. destruct E as [E | ->]; auto.
    + pair_inv H. exact E.
  - cbn. rewrite !has_LogMulti_app. destruct E as [E | ->]; auto.
Qed.

Lemma loop_check all_genes : forall s,
  has_LogMulti (log_file (loop remote all_genes s)) = false ->
  check_gene_id (loop remote all_genes s) = check_gene_id s.
Proof.
  induction all_genes as [|gene rest IH]; intros s H; [reflexivity|].
  rewrite loop_cons in *. rewrite (IH _ H).
  destruct (iteration_check gene s) as [E | E]; [exact E|].
  apply (has_LogMulti_prefix _ _ (loop_log remote rest _)) in E.
  congruence.
Qed.

End CheckGeneId.

(** C10: a symbol whose search returns a single candidate, and whose
    candidate is discontinued, reaches line 140 while no earlier symbol
    of the run has entered the multi-candidate branch: the read of
    [check_gene_id] raises [NameError], the handler of line 228 files the
    symbol under [genes_None.txt] with that cause, and
    [genes_NCBI_Discontinued_1.txt] is not written. *)
Theorem sole_discontinued_raises_NameError (remote : Remote)
    (pre post : list string) (gene gene_id : string)
    (s1 s2 : State) (r1 r2 : Response) (root : Element) :
  let all_genes := pre ++ gene :: post in
  let s0 := loop remote pre (start all_genes) in
  has_LogMulti (log_file s0) = false ->
  call_esearch remote gene 25 "relevance" s0 = (s1, Ok r1) ->
  body r1 = BodyJson (Some [gene_id]) ->
  call_efetch remote gene_id s1 = (s2, Ok r2) ->
  body r2 = BodyXml root ->
  is_discontinued root = true ->
  try_body remote gene s0 = (s2, Raise (NameError "check_gene_id")) /\
  genes_None (iteration remote gene s0) = genes_None s0 ++ [gene] /\
  genes_NCBI_Discontinued_1 (iteration remote gene s0) =
    genes_NCBI_Discontinued_1 s0 /\
  gene_id_dict (iteration remote gene s0) = gene_id_dict s0 /\
  In (LogFailed gene (NameError "check_gene_id"))
     (log_file (main remote all_genes)) /\
  In gene (genes_None (main remote all_genes)).
Proof.
  intros all_genes s0 Hlog Hsearch Hb1 Hfetch Hb2 Hdisc.
  assert (Hunbound : check_gene_id s2 = None).
  { pose proof (calls_call_esearch remote gene 25 "relevance" s0) as Ha.
    pose proof (calls_call_efetch remote gene_id s1) as Hb.
    rewrite Hsearch in Ha. rewrite Hfetch in Hb.
    destruct Ha as (Ha & _), Hb as (Hb & _). simpl_state_in Ha.
    simpl_state_in Hb. rewrite Hb, Ha. unfold s0.
    rewrite loop_check by exact Hlog. reflexivity. }
  assert (Hraise : try_body remote gene s0 =
                   (s2, Raise (NameError "check_gene_id"))).
  { unfold try_body, candidates, bind. rewrite Hsearch.
    unfold json_idlist. rewrite Hb1. unfold ret at 1. rewrite Hfetch.
    unfold fromstring. rewrite Hb2. unfold ret at 1.
    unfold is_discontinued in Hdisc.
    destruct (find discontinue_date_path root); [|discriminate].
    unfold read_check_gene_id. rewrite Hunbound. reflexivity. }
  split; [exact Hraise|].
  destruct (iteration_raise remote gene s0 s2 _ Hraise) as (_ & Hn & H1 & Hd).
  destruct (failure_raised_is_filed remote pre post gene s2 _ Hraise)
    as (Hin & Hnone).
  repeat split; auto.
Qed.

Lemma sole_discontinued_raises_NameError_witness :
  genes_None (main remote_history ["FOO"; "A"; "B"]) = ["FOO"; "A"] /\
  In (LogFailed "A" (NameError "check_gene_id"))
     (log_file (main remote_history ["FOO"; "A"; "B"])).
Proof.
  edestruct (sole_discontinued_raises_NameError remote_history
               ["FOO"] ["B"] "A" "7") as (_ & _ & _ & _ & Hlog & _).
  - vm_compute. reflexivity.
  - vm_compute. reflexivity.
  - reflexivity.
  - vm_compute. reflexivity.
  - reflexivity.
  - vm_compute. reflexivity.
  - split; [vm_compute; reflexivity | exact Hlog].
Defined.

(** ** The code at the inputs where it departs from its own intent *)

(** C6 (the code at the failing input): the first symbol of a run has a
    single, discontinued candidate; it ends in the list of generic
    failures with a [NameError] as its cause, and the list of
    discontinued sole candidates stays empty. *)
Theorem sole_discontinued_first_symbol :
  let final := main remote_history ["A"] in
  is_discontinued (gene_record true ["A"] []) = true /\
  log_file final = [LogCount 1; LogFailed "A" (NameError "check_gene_id")] /\
  genes_None final = ["A"] /\
  genes_NCBI_Discontinued_1 final = [] /\
  gene_id_dict final !! "A" = None.
Proof. vm_compute. repeat split. Qed.

(** C7 (the code at the failing input): against a remote that never
    changes, the symbol A is filed as a generic failure when it comes
    first, and as a discontinued sole candidate when B was resolved
    before it. *)
Theorem outcome_depends_on_history :
  unchanging remote_history /\
  unresolved (main remote_history ["A"]) = ["A"] /\
  genes_None (main remote_history ["A"]) = ["A"] /\
  genes_NCBI_Discontinued_1 (main remote_history ["A"]) = [] /\
  genes_None (main remote_history ["B"; "A"]) = [] /\
  genes_NCBI_Discontinued_1 (main remote_history ["B"; "A"]) = [("A", "7")] /\
  check_gene_id (main remote_history ["B"]) = Some "1".
Proof.
  split; [intros n m rq; reflexivity|].
  vm_compute. repeat split.
Qed.

(** C3 (the code at the failing input): the top candidate of X is
    discontinued and is listed as such, no other candidate matches, and
    the dictionary maps X to that discontinued identifier. *)
Theorem discontinued_fallback_is_recorded :
  let final := main remote_fallback ["X"] in
  remote_fallback 1%nat (EFetch "10") = ok_xml (gene_record true ["OLD"] []) /\
  is_discontinued (gene_record true ["OLD"] []) = true /\
  genes_NCBI_Discontinued_2 final = [("X", "10")] /\
  gene_id_dict final !! "X" = Some "10".
Proof. vm_compute. repeat split. Qed.

(** ** The candidate loop on a remote that serves the records *)

Section Served.

Variable remote : Remote.

Lemma call_of_answers rq b s :
  answers remote rq b ->
  exists s' r, call_of remote rq s = (s', Ok r) /\ body r = b.
Proof.
  intros H. rewrite call_of_unfold. cbn [retry_from].
  rewrite http_call_run.
  destruct (H (clock (fst (emit (EvCall rq) s)))) as (r & -> & Hok & Hb).
  unfold attempt_outcome. rewrite Hok. eauto.
Qed.

Lemma pick_official_run gene check_id root s :
  exists s',
    pick_official gene check_id (texts (findall locus_path root)) s =
      (s', Ok (official_symbol_of root)) /\
    trace s' = trace s /\
    genes_NCBI_Discontinued_2 s' = genes_NCBI_Discontinued_2 s.
Proof.
  unfold official_symbol_of, pick_official.
  destruct (texts (findall locus_path root)) as [|o [|o' os]];
    eexists; (split; [reflexivity|]); split; reflexivity.
Qed.

(** One turn of the loop on a candidate whose record is served. *)
Lemma loop_step gene check_id rest gene_id cands root s :
  answers remote (EFetch check_id) (BodyXml root) ->
  exists s1,
    fetch_calls (trace s1) = fetch_calls (trace s) ++ [check_id] /\
    genes_NCBI_Discontinued_2 s1 =
      genes_NCBI_Discontinued_2 s ++
      (if is_discontinued root then [(gene, check_id)] else []) /\
    for_check_gene_id remote gene (check_id :: rest) gene_id cands s =
      if is_discontinued root
      then for_check_gene_id remote gene rest gene_id cands s1
      else if gene_eq gene (official_symbol_of root)
      then (s1, Ok (check_id, []))
      else if gene_in gene (gene_aliases_of root)
      then for_check_gene_id remote gene rest gene_id (cands ++ [check_id]) s1
      else for_check_gene_id remote gene rest gene_id cands s1.
Proof.
  intros Hans. cbn [for_check_gene_id].
  unfold bind at 1. cbn [bind_check_gene_id modify].
  match goal with |- context [bind (call_efetch remote check_id) _ ?t] =>
    set (s0 := t) end.
  destruct (call_of_answers (EFetch check_id) _ s0 Hans) as (s' & r & E & Hb).
  cbn [call_of] in E.
  pose proof (calls_call_efetch remote check_id s0) as Hf.
  rewrite E in Hf. destruct Hf as (_ & _ & _ & _ & _ & H2 & _ & Hfc).
  simpl_state_in H2. simpl_state_in Hfc. cbn in Hfc.
  unfold bind at 1. rewrite E.
  unfold bind at 1, fromstring. rewrite Hb. unfold ret at 1.
  unfold is_discontinued.
  destruct (find discontinue_date_path root).
  - eexists. split; [|split].
    3:{ unfold bind, log_write, write_Discontinued_2, modify. reflexivity. }
    + simpl_state. exact Hfc.
    + simpl_state. rewrite H2. reflexivity.
  - unfold bind at 1. cbn [log_write modify].
    match goal with |- context [bind (pick_official gene check_id _) _ ?t] =>
      destruct (pick_official_run gene check_id root t) as (s2 & Ep & Ht & Hd)
    end.
    simpl_state_in Ht. simpl_state_in Hd.
    exists s2. split; [|split].
    + rewrite Ht. exact Hfc.
    + rewrite Hd, H2, app_nil_r. reflexivity.
    + unfold bind at 1. rewrite Ep. unfold gene_aliases_of.
      destruct (gene_eq gene (official_symbol_of root)); [reflexivity|].
      destruct (gene_in gene _); reflexivity.
Qed.

Section Loop.

Variables (gene : string) (record_of : string -> Element).

(** No candidate is an exact match: the loop runs to its end, keeps
    [gene_id] and collects the alias matches in order. *)
Lemma loop_without_exact ids : forall gene_id cands s,
  (forall i, In i ids -> answers remote (EFetch i) (BodyXml (record_of i))) ->
  (forall i, In i ids -> exact_match gene (record_of i) = false) ->
  exists s',
    for_check_gene_id remote gene ids gene_id cands s =
      (s', Ok (gene_id,
               cands ++ List.filter (fun i => alias_match gene (record_of i)) ids)) /\
    fetch_calls (trace s') = fetch_calls (trace s) ++ ids /\
    genes_NCBI_Discontinued_2 s' =
      genes_NCBI_Discontinued_2 s ++
      map (pair gene)
          (List.filter (fun i => is_discontinued (record_of i)) ids).
Proof.
  induction ids as [|check_id rest IH]; intros gene_id cands s Hans Hno.
  - exists s. cbn. rewrite !app_nil_r. auto.
  - destruct (loop_step gene check_id rest gene_id cands (record_of check_id) s)
      as (s1 & Hf & Hd & E); [apply Hans; left; reflexivity|].
    rewrite E. clear E.
    specialize (Hno check_id (or_introl eq_refl)) as Hhere.
    unfold exact_match in Hhere. cbn [List.filter map]. unfold alias_match at 1.
    assert (Hans' : forall i, In i rest ->
              answers remote (EFetch i) (BodyXml (record_of i)))
      by (intros; apply Hans; right; assumption).
    assert (Hno' : forall i, In i rest -> exact_match gene (record_of i) = false)
      by (intros; apply Hno; right; assumption).
    destruct (is_discontinued (record_of check_id)); cbn [negb andb] in *.
    + destruct (IH gene_id cands s1 Hans' Hno') as (s' & E & Hf' & Hd').
      exists s'. rewrite E, Hf', Hd', Hf, Hd, <- !app_assoc. auto.
    + rewrite Hhere. rewrite app_nil_r in Hd.
      destruct (gene_in gene (gene_aliases_of (record_of check_id))).
      * destruct (IH gene_id (cands ++ [check_id]) s1 Hans' Hno')
          as (s' & E & Hf' & Hd').
        exists s'. rewrite E, Hf', Hd', Hf, Hd, <- !app_assoc. auto.
      * destruct (IH gene_id cands s1 Hans' Hno') as (s' & E & Hf' & Hd').
        exists s'. rewrite E, Hf', Hd', Hf, Hd, <- !app_assoc. auto.
Qed.

(** The first exact match ends the loop: the rest is not fetched and the
    alias matches collected so far are dropped. *)
Lemma loop_until_exact pre : forall check_id post gene_id cands s,
  (forall i, In i (pre ++ [check_id]) ->
     answers remote (EFetch i) (BodyXml (record_of i))) ->
  (forall i, In i pre -> exact_match gene (record_of i) = false) ->
  exact_match gene (record_of check_id) = true ->
  exists s',
    for_check_gene_id remote gene (pre ++ check_id :: post) gene_id cands s =
      (s', Ok (check_id, [])) /\
    fetch_calls (trace s') = fetch_calls (trace s) ++ pre ++ [check_id].
Proof.
  induction pre as [|p pre IH]; intros check_id post gene_id cands s Hans Hno Hex.
  - cbn [app].
    destruct (loop_step gene check_id post gene_id cands (record_of check_id) s)
      as (s1 & Hf & _ & E); [apply Hans; left; reflexivity|].
    rewrite E. unfold exact_match in Hex.
    apply andb_true_iff in Hex. destruct Hex as [Hd He].
    apply negb_true_iff in Hd. rewrite Hd, He. eauto.
  - cbn [app].
    destruct (loop_step gene p (pre ++ check_id :: post) gene_id cands
                (record_of p) s)
      as (s1 & Hf & _ & E); [apply Hans; left; reflexivity|].
    rewrite E. clear E.
    specialize (Hno p (or_introl eq_refl)) as Hhere.
    unfold exact_match in Hhere.
    assert (Hans' : forall i, In i (pre ++ [check_id]) ->
              answers remote (EFetch i) (BodyXml (record_of i)))
      by (intros; apply Hans; right; assumption).
    assert (Hno' : forall i, In i pre -> exact_match gene (record_of i) = false)
      by (intros; apply Hno; right; assumption).
    assert (Hgo : forall c, exists s',
      for_check_gene_id remote gene (pre ++ check_id :: post) gene_id c s1 =
        (s', Ok (check_id, [])) /\
      fetch_calls (trace s') = fetch_calls (trace s) ++ p :: pre ++ [check_id]).
    { intros c. destruct (IH check_id post gene_id c s1 Hans' Hno' Hex)
        as (s' & E & Hf').
      exists s'. rewrite E, Hf', Hf, <- app_assoc. auto. }
    destruct (is_discontinued (record_of p)); cbn [negb andb] in *.
    + apply Hgo.
    + rewrite Hhere.
      destruct (gene_in gene (gene_aliases_of (record_of p))); apply Hgo.
Qed.

End Loop.

(** With two candidates or more, the iteration is the search, the line
    logged as [LogMulti], the loop, and the assignment of line 222. *)
Lemma iteration_multi gene id0 id1 more record_of s :
  serves remote gene (id0 :: id1 :: more) record_of ->
  exists s1,
    fetch_calls (trace s1) = fetch_calls (trace s) /\
    genes_NCBI_Discontinued_2 s1 = genes_NCBI_Discontinued_2 s /\
    forall s2 gene_id cands,
      for_check_gene_id remote gene (id0 :: id1 :: more) id0 [] s1 =
        (s2, Ok (gene_id, cands)) ->
      candidates remote gene s = (s2, Ok (Some (gene_id, cands))) /\
      gene_id_dict (iteration remote gene s) =
        <[gene := final_gene_id gene_id cands]> (gene_id_dict s) /\
      fetch_calls (trace (iteration remote gene s)) = fetch_calls (trace s2) /\
      genes_NCBI_Discontinued_2 (iteration remote gene s) =
        genes_NCBI_Discontinued_2 s2.
Proof.
  intros [Hsearch _].
  destruct (call_of_answers (ESearch gene 25 "relevance") _ s Hsearch)
    as (s0 & r & E & Hb).
  cbn [call_of] in E.
  pose proof (calls_call_esearch remote gene 25 "relevance" s) as Hc.
  rewrite E in Hc. destruct Hc as (_ & Hd & _ & _ & _ & H2 & _ & Hfc).
  simpl_state_in Hd. simpl_state_in H2. simpl_state_in Hfc. cbn in Hfc.
  rewrite app_nil_r in Hfc.
  exists (fst (log_write (LogMulti gene (id0 :: id1 :: more)) s0)).
  split; [exact Hfc|]. split; [exact H2|].
  intros s2 gene_id cands Hloop.
  pose proof (scans_for_check_gene_id remote gene (id0 :: id1 :: more) id0 []
                (fst (log_write (LogMulti gene (id0 :: id1 :: more)) s0)))
    as Hsc.
  rewrite Hloop in Hsc. destruct Hsc as (Hd2 & _). simpl_state_in Hd2.
  assert (Hcand : candidates remote gene s = (s2, Ok (Some (gene_id, cands)))).
  { unfold candidates. unfold bind at 1. rewrite E.
    unfold bind at 1, json_idlist. rewrite Hb. unfold ret at 1.
    unfold bind at 1. cbn [log_write modify fst] in Hloop |- *.
    unfold bind at 1. rewrite Hloop. reflexivity. }
  split; [exact Hcand|].
  assert (Hit : iteration remote gene s =
    fst ((dict_set gene (final_gene_id gene_id cands) ;;;
          log_write (LogSuccess gene (final_gene_id gene_id cands))) s2)).
  { unfold iteration, try_body. unfold bind at 1. rewrite Hcand.
    reflexivity. }
  rewrite Hit. unfold bind, dict_set, log_write, modify. simpl_state.
  cbn [log_write modify fst gene_id_dict] in Hd2. rewrite Hd2, Hd. auto.
Qed.

End Served.

Lemma gene_eq_true gene o : gene_eq gene o = true <-> o = Some gene.
Proof.
  destruct o as [x|]; simpl; [|split; discriminate].
  rewrite String.eqb_eq. split; congruence.
Qed.

Lemma gene_eq_false gene o : gene_eq gene o = false <-> o <> Some gene.
Proof.
  rewrite <- gene_eq_true. destruct (gene_eq gene o); split; congruence.
Qed.

Lemma in_take_lookup {A} (l : list A) : forall k x,
  In x (take k l) -> exists j, (j < k)%nat /\ l !! j = Some x.
Proof.
  induction l as [|a l IH]; intros [|k] x Hin; try (destruct Hin; fail).
  destruct Hin as [<- | Hin].
  - exists 0%nat. split; [lia | reflexivity].
  - destruct (IH k x Hin) as (j & Hj & E).
    exists (S j). split; [lia | exact E].
Qed.


(** Proves [serves] for a table remote and the records of its table. *)
Ltac serves_table :=
  split;
  [ intros n; eexists; split; [reflexivity | split; reflexivity]
  | intros i Hi; cbn in Hi;
    repeat (destruct Hi as [<- | Hi];
            [intros n; eexists; split; [reflexivity | split; reflexivity]|]);
    destruct Hi ].

(** ** The three rules of the multi-candidate case *)

(** C1 (as amended): the search returns two candidates or more; the
    candidate at rank [k] is not discontinued and its official symbol
    equals the input symbol, and no non-discontinued candidate before it
    has that official symbol. Then the loop is left at rank [k] with that
    candidate and an empty list of alias candidates, the dictionary maps
    the symbol to it, and [call_efetch] was called for the candidates up
    to rank [k] and for no other. *)
Theorem exact_match_wins (remote : Remote) (gene : string)
    (ids_list : list string) (record_of : string -> Element)
    (k : nat) (gene_id : string) (s : State) :
  serves remote gene ids_list record_of ->
  (2 <= length ids_list)%nat ->
  ids_list !! k = Some gene_id ->
  is_discontinued (record_of gene_id) = false ->
  official_symbol_of (record_of gene_id) = Some gene ->
  (forall j other, (j < k)%nat -> ids_list !! j = Some other ->
     is_discontinued (record_of other) = false ->
     official_symbol_of (record_of other) <> Some gene) ->
  (exists s', candidates remote gene s = (s', Ok (Some (gene_id, [])))) /\
  gene_id_dict (iteration remote gene s) =
    <[gene := gene_id]> (gene_id_dict s) /\
  fetch_calls (trace (iteration remote gene s)) =
    fetch_calls (trace s) ++ take (S k) ids_list.
Proof.
  intros Hserves Hlen Hk Hlive Hoff Hbefore.
  destruct ids_list as [|id0 [|id1 more]]; cbn in Hlen; try lia.
  set (ids := id0 :: id1 :: more) in *.
  destruct (iteration_multi remote gene id0 id1 more record_of s Hserves)
    as (s1 & Hf1 & _ & Hiter).
  destruct Hserves as [_ Hrec].
  destruct (loop_until_exact remote gene record_of (take k ids) gene_id
              (drop (S k) ids) id0 [] s1) as (s2 & E & Hf2).
  - intros i Hi. apply Hrec. rewrite <- (take_drop_middle ids k gene_id Hk).
    apply in_app_or in Hi. apply in_or_app.
    destruct Hi as [Hi | [<- | []]]; [left; exact Hi | right; left; reflexivity].
  - intros i Hi. destruct (in_take_lookup ids k i Hi) as (j & Hj & Ej).
    unfold exact_match.
    destruct (is_discontinued (record_of i)) eqn:Hd; [reflexivity|].
    cbn. apply gene_eq_false. eapply Hbefore; eauto.
  - unfold exact_match. rewrite Hlive. cbn. apply gene_eq_true. exact Hoff.
  - rewrite (take_drop_middle ids k gene_id Hk) in E.
    destruct (Hiter s2 gene_id [] E) as (Hcand & Hdict & Hfc & _).
    split; [eauto|]. split; [exact Hdict|].
    rewrite Hfc, Hf2, Hf1. erewrite take_S_r by exact Hk. reflexivity.
Qed.

Lemma exact_match_wins_witness :
  gene_id_dict (iteration remote_ranked "X" init_state) =
    <["X" := "20"]> (gene_id_dict init_state) /\
  fetch_calls (trace (iteration remote_ranked "X" init_state)) =
    fetch_calls (trace init_state) ++ take 2 ["10"; "20"; "30"].
Proof.
  refine (proj2 (exact_match_wins remote_ranked "X" ["10"; "20"; "30"]
                   (lookup_record records_ranked) 1 "20" init_state
                   _ _ _ _ _ _)).
  - serves_table.
  - cbn. lia.
  - reflexivity.
  - reflexivity.
  - reflexivity.
  - intros j other Hj Hother _.
    destruct j as [|j]; [|lia].
    cbn in Hother. injection Hother as <-. vm_compute. discriminate.
Defined.

(** C1 (counterexample to the claim as stated): the candidate at rank 0
    has the input symbol as its official symbol and no candidate comes
    before it, yet the dictionary maps the symbol to the candidate at
    rank 1: the record at rank 0 is discontinued and the loop skips it
    before it looks at the official symbol. *)
Lemma exact_match_of_discontinued_record_is_skipped :
  serves remote_retired "X" ["10"; "20"] (lookup_record records_retired) /\
  (2 <= length ["10"; "20"])%nat /\
  ["10"; "20"] !! 0%nat = Some "10" /\
  official_symbol_of (lookup_record records_retired "10") = Some "X" /\
  (forall j other, (j < 0)%nat -> ["10"; "20"] !! j = Some other ->
     is_discontinued (lookup_record records_retired other) = false ->
     official_symbol_of (lookup_record records_retired other) <> Some "X") /\
  gene_id_dict (iteration remote_retired "X" init_state) !! "X" = Some "20" /\
  gene_id_dict (iteration remote_retired "X" init_state) <>
    <["X" := "10"]> (gene_id_dict init_state).
Proof.
  split; [serves_table|].
  split; [cbn; lia|].
  split; [reflexivity|].
  split; [reflexivity|].
  split; [intros j other Hj; lia|].
  split; [vm_compute; reflexivity|].
  intros H.
  assert (E : gene_id_dict (iteration remote_retired "X" init_state) !! "X" =
              (<["X" := "10"]> (gene_id_dict init_state)) !! "X")
    by (rewrite H; reflexivity).
  vm_compute in E. discriminate E.
Qed.

Lemma filter_none {A} (f : A -> bool) (l : list A) :
  (forall x, In x l -> f x = false) -> List.filter f l = [].
Proof.
  induction l as [|a l IH]; intros H; [reflexivity|].
  cbn. rewrite (H a) by (left; reflexivity).
  apply IH. intros x Hx. apply H. right. exact Hx.
Qed.

Lemma no_official_no_exact gene (record_of : string -> Element) ids :
  (forall i, In i ids -> official_symbol_of (record_of i) <> Some gene) ->
  forall i, In i ids -> exact_match gene (record_of i) = false.
Proof.
  intros H i Hi. unfold exact_match.
  apply andb_false_iff. right. apply gene_eq_false. apply H. exact Hi.
Qed.

(** C2: the search returns two candidates or more, no candidate has the
    input symbol as its official symbol, and no candidate that is not
    discontinued lists it among its aliases. Then the loop ends with the
    top candidate of the search and no alias candidate, the dictionary
    maps the symbol to that top candidate, and this is so even when the
    loop found the top candidate discontinued and listed it in
    [genes_NCBI_Discontinued_2.txt]. *)
Theorem fallback_is_top_candidate (remote : Remote) (gene : string)
    (ids_list : list string) (record_of : string -> Element)
    (top : string) (s : State) :
  serves remote gene ids_list record_of ->
  (2 <= length ids_list)%nat ->
  ids_list !! 0%nat = Some top ->
  (forall i, In i ids_list -> official_symbol_of (record_of i) <> Some gene) ->
  (forall i, In i ids_list -> is_discontinued (record_of i) = false ->
     gene_in gene (gene_aliases_of (record_of i)) = false) ->
  (exists s', candidates remote gene s = (s', Ok (Some (top, [])))) /\
  gene_id_dict (iteration remote gene s) = <[gene := top]> (gene_id_dict s) /\
  (is_discontinued (record_of top) = true ->
   In (gene, top) (genes_NCBI_Discontinued_2 (iteration remote gene s))).
Proof.
  intros Hserves Hlen Htop Hoff Halias.
  destruct ids_list as [|id0 [|id1 more]]; cbn in Hlen; try lia.
  cbn in Htop. injection Htop as ->.
  set (ids := top :: id1 :: more) in *.
  destruct (iteration_multi remote gene top id1 more record_of s Hserves)
    as (s1 & _ & _ & Hiter).
  destruct Hserves as [_ Hrec].
  destruct (loop_without_exact remote gene record_of ids top [] s1 Hrec
              (no_official_no_exact gene record_of ids Hoff))
    as (s2 & E & _ & Hd2).
  rewrite filter_none in E.
  2:{ intros i Hi. unfold alias_match.
      destruct (is_discontinued (record_of i)) eqn:Hd; [reflexivity|].
      cbn. apply Halias; assumption. }
  destruct (Hiter s2 top [] E) as (Hcand & Hdict & _ & Hdisc).
  split; [eauto|]. split; [exact Hdict|].
  intros Hretired. rewrite Hdisc, Hd2. apply in_or_app. right.
  apply in_map. apply filter_In. split; [left; reflexivity | exact Hretired].
Qed.

Lemma fallback_is_top_candidate_witness :
  gene_id_dict (iteration remote_fallback "X" init_state) =
    <["X" := "10"]> (gene_id_dict init_state) /\
  In ("X", "10")
     (genes_NCBI_Discontinued_2 (iteration remote_fallback "X" init_state)).
Proof.
  destruct (fallback_is_top_candidate remote_fallback "X" ["10"; "20"]
              (lookup_record records_fallback) "10" init_state)
    as (_ & Hdict & Hdisc).
  - serves_table.
  - cbn. lia.
  - reflexivity.
  - intros i Hi. cbn in Hi.
    destruct Hi as [<- | [<- | []]]; vm_compute; discriminate.
  - intros i Hi _. cbn in Hi.
    destruct Hi as [<- | [<- | []]]; reflexivity.
  - split; [exact Hdict | apply Hdisc; reflexivity].
Defined.



(** ** The dictionary and the lists of unresolved symbols *)

Lemma settled_cases gene s s' :
  Settled gene s s' ->
  (exists gene_id,
     gene_id_dict s' = <[gene := gene_id]> (gene_id_dict s) /\
     forall x, In x (unresolved s') <-> In x (unresolved s)) \/
  (gene_id_dict s' = gene_id_dict s /\
   forall x, In x (unresolved s') <-> In x (unresolved s) \/ x = gene).
Proof.
  unfold unresolved.
  intros [gene_id Hd Hn H1 | Hd Hn H1 | gene_id Hd Hn H1]; rewrite Hn, H1.
  - left. exists gene_id. split; [exact Hd | tauto].
  - right. split; [exact Hd|]. intros x. rewrite !in_app_iff. cbn.
    intuition congruence.
  - right. split; [exact Hd|]. intros x.
    rewrite map_app, !in_app_iff. cbn. intuition congruence.
Qed.

Section Decided.

Variable remote : Remote.

Lemma iteration_decided done gene s :
  decided done s -> ~ In gene done ->
  decided (done ++ [gene]) (iteration remote gene s).
Proof.
  intros (Hkeys & Hun & Hsep) Hfresh. unfold decided.
  destruct (settled_cases gene s _ (iteration_settled remote gene s))
    as [(gene_id & -> & Hsame) | (-> & Hmore)].
  - repeat split.
    + intros g Hg. apply in_or_app.
      destruct (decide (gene = g)) as [<- | Hne]; [right; left; reflexivity|].
      rewrite lookup_insert_ne in Hg by exact Hne. left. auto.
    + intros g Hg. apply in_or_app. left. apply Hun, Hsame, Hg.
    + intros g Hg Hin. apply Hsame in Hin.
      destruct (decide (gene = g)) as [<- | Hne]; [auto|].
      rewrite lookup_insert_ne in Hg by exact Hne. apply (Hsep g); auto.
  - repeat split.
    + intros g Hg. apply in_or_app. left. auto.
    + intros g Hg. apply in_or_app. apply Hmore in Hg.
      destruct Hg as [Hg | ->]; [left; auto | right; left; reflexivity].
    + intros g Hg Hin. apply Hmore in Hin.
      destruct Hin as [Hin | ->]; [apply (Hsep g); auto | auto].
Qed.

Lemma loop_decided all_genes : forall done s,
  decided done s -> List.NoDup (done ++ all_genes) ->
  decided (done ++ all_genes) (loop remote all_genes s).
Proof.
  induction all_genes as [|gene rest IH]; intros done s Hdec Hnd.
  - rewrite app_nil_r. exact Hdec.
  - rewrite loop_cons.
    replace (done ++ gene :: rest) with ((done ++ [gene]) ++ rest) in *
      by (rewrite <- app_assoc; reflexivity).
    apply IH; [|exact Hnd].
    apply iteration_decided; [exact Hdec|].
    rewrite <- app_assoc in Hnd. cbn in Hnd.
    apply List.NoDup_remove_2 in Hnd.
    intros Hin. apply Hnd. apply in_or_app. left. exact Hin.
Qed.

Lemma start_decided all_genes : decided [] (start all_genes).
Proof.
  unfold decided, start, unresolved. cbn.
  split; [|split].
  - intros g Hg. rewrite lookup_empty in Hg. destruct Hg; discriminate.
  - intros g [].
  - intros g Hg []. 
Qed.

End Decided.

(** ** Against a remote that never changes *)

Lemma stateless_ret {A} (a : A) : stateless (ret a).
Proof. intros s t. reflexivity. Qed.

Lemma stateless_raise {A} e : stateless (@raise A e).
Proof. intros s t. reflexivity. Qed.

Lemma stateless_modify f : stateless (modify f).
Proof. intros s t. reflexivity. Qed.

Lemma stateless_bind {A B} (m : M A) (k : A -> M B) :
  stateless m -> (forall a, stateless (k a)) -> stateless (bind m k).
Proof.
  intros Hm Hk s t. unfold bind. specialize (Hm s t).
  destruct (m s) as [s1 [a|e]], (m t) as [t1 [b|e']]; cbn in Hm;
    try discriminate; injection Hm as ->; [apply Hk | reflexivity].
Qed.

Lemma agree_bind {A B C} (f : Outcome B -> C) (m : M A) (k : A -> M B) :
  stateless m -> (forall a, agree_on f (k a)) -> agree_on f (bind m k).
Proof.
  intros Hm Hk s t. unfold bind. specialize (Hm s t).
  destruct (m s) as [s1 [a|e]], (m t) as [t1 [b|e']]; cbn in Hm;
    try discriminate; injection Hm as ->; [apply Hk | reflexivity].
Qed.

Lemma stateless_agree {A B} (f : Outcome A -> B) (m : M A) :
  stateless m -> agree_on f m.
Proof. intros H s t. rewrite (H s t). reflexivity. Qed.

Lemma stateless_retry_from {A} w p (fn : M A) n :
  stateless fn -> stateless (retry_from w p fn n).
Proof.
  intros Hfn. induction n as [|n IH]; intros s t; cbn [retry_from];
    specialize (Hfn s t);
    destruct (fn s) as [s1 [a|e]], (fn t) as [t1 [b|e']]; cbn in Hfn;
    try discriminate; injection Hfn as ->; try reflexivity;
    destruct (p e'); try reflexivity.
  apply (stateless_bind (emit (EvSleep w)) (fun _ => retry_from w p fn n));
    [apply stateless_modify | intros _; exact IH].
Qed.

Section Unchanging.

Variable remote : Remote.
Hypothesis remote_unchanging : unchanging remote.

Lemma stateless_http_call rq : stateless (http_call remote rq).
Proof.
  intros s t. rewrite !http_call_run. cbn [snd].
  rewrite (remote_unchanging (clock s) (clock t)). reflexivity.
Qed.

Lemma stateless_call_of rq : stateless (call_of remote rq).
Proof.
  assert (H : stateless (emit (EvCall rq) ;;;
                         retry 6 3 isinstance_RequestException
                           (http_call remote rq))).
  { apply stateless_bind; [apply stateless_modify | intros _].
    apply stateless_retry_from, stateless_http_call. }
  destruct rq; exact H.
Qed.

Lemma stateless_json_idlist r : stateless (json_idlist r).
Proof.
  unfold json_idlist.
  destruct (body r) as [[ids|]| |];
    (apply stateless_ret || apply stateless_raise).
Qed.

Lemma stateless_fromstring r : stateless (fromstring r).
Proof.
  unfold fromstring.
  destruct (body r); (apply stateless_ret || apply stateless_raise).
Qed.

Lemma stateless_pick_official gene check_id o :
  stateless (pick_official gene check_id o).
Proof. intros s t. destruct o as [|x [|y ys]]; reflexivity. Qed.

Lemma stateless_for_check_gene_id gene ids : forall gene_id cands,
  stateless (for_check_gene_id remote gene ids gene_id cands).
Proof.
  induction ids as [|check_id rest IH]; intros gene_id cands;
    cbn [for_check_gene_id].
  - apply stateless_ret.
  - apply stateless_bind; [apply stateless_modify | intros _].
    apply stateless_bind; [apply (stateless_call_of (EFetch check_id))|].
    intros response2.
    apply stateless_bind; [apply stateless_fromstring | intros root].
    destruct (find discontinue_date_path root).
    + apply stateless_bind; [apply stateless_modify | intros _].
      apply stateless_bind; [apply stateless_modify | intros _].
      apply IH.
    + apply stateless_bind; [apply stateless_modify | intros _].
      apply stateless_bind; [apply stateless_pick_official | intros official].
      destruct (gene_eq gene official); [apply stateless_ret|].
      destruct (gene_in gene _); apply IH.
Qed.

(** Whether a symbol is resolved, and to what, is the same whatever was
    run before it: the one thing the body reads from earlier iterations,
    the name [check_gene_id], only chooses between two ways of leaving
    the symbol unresolved. *)
Lemma agree_candidates gene : agree_on resolved (candidates remote gene).
Proof.
  unfold candidates.
  apply agree_bind;
    [apply (stateless_call_of (ESearch gene 25 "relevance"))|].
  intros response1.
  apply agree_bind; [apply stateless_json_idlist | intros ids_list].
  destruct ids_list as [|gene_id [|second more]].
  - apply stateless_agree.
    apply stateless_bind; [apply stateless_modify | intros _].
    apply stateless_bind; [apply stateless_modify | intros _].
    apply stateless_ret.
  - apply agree_bind; [apply (stateless_call_of (EFetch gene_id))|].
    intros response2.
    apply agree_bind; [apply stateless_fromstring | intros root].
    destruct (find discontinue_date_path root).
    + intros s t.
      unfold bind, read_check_gene_id, log_write, write_Discontinued_1,
        modify, ret.
      destruct (check_gene_id s), (check_gene_id t); reflexivity.
    + apply stateless_agree.
      apply stateless_bind; [apply stateless_modify | intros _].
      apply stateless_ret.
  - apply stateless_agree.
    apply stateless_bind; [apply stateless_modify | intros _].
    apply stateless_bind; [apply stateless_for_check_gene_id | intros r].
    apply stateless_ret.
Qed.

End Unchanging.

(** What an iteration does to the outputs, read off the result of
    [candidates]. *)
Lemma iteration_by_resolved remote gene s :
  match resolved (snd (candidates remote gene s)) with
  | Some (gene_id, cands) =>
      gene_id_dict (iteration remote gene s) =
        <[gene := final_gene_id gene_id cands]> (gene_id_dict s) /\
      forall x, In x (unresolved (iteration remote gene s)) <->
                In x (unresolved s)
  | None =>
      gene_id_dict (iteration remote gene s) = gene_id_dict s /\
      forall x, In x (unresolved (iteration remote gene s)) <->
                In x (unresolved s) \/ x = gene
  end.
Proof.
  destruct (candidates remote gene s) as [s1 o] eqn:E.
  pose proof (candidates_footprint remote gene s s1 o E) as (_ & _ & Hd & Ho).
  assert (Hit : iteration remote gene s =
    match o with
    | Ok (Some (gene_id, cands)) =>
        fst ((dict_set gene (final_gene_id gene_id cands) ;;;
              log_write (LogSuccess gene (final_gene_id gene_id cands))) s1)
    | Ok None => s1
    | Raise e => fst (except_handler gene e s1)
    end).
  { unfold iteration, try_body. unfold bind at 1. rewrite E.
    destruct o as [[[gene_id cands]|]|e]; reflexivity. }
  rewrite Hit. clear Hit. cbn [snd]. unfold unresolved.
  destruct o as [[[gene_id cands]|]|e]; cbn [resolved].
  - destruct Ho as [Hn H1]. cbn. rewrite Hd, Hn, H1. split; [reflexivity|tauto].
  - split; [exact Hd|]. intros x.
    destruct Ho as [[Hn H1] | (gene_id & Hn & H1)]; rewrite Hn, H1.
    + rewrite !in_app_iff. cbn. intuition congruence.
    + rewrite map_app, !in_app_iff. cbn. intuition congruence.
  - destruct Ho as [Hn H1]. cbn. rewrite Hd, Hn, H1. split; [reflexivity|].
    intros x. rewrite !in_app_iff. cbn. intuition congruence.
Qed.

Section Consistent.

Variable remote : Remote.
Hypothesis remote_unchanging : unchanging remote.

Lemma iteration_consistent gene s :
  consistent remote s -> consistent remote (iteration remote gene s).
Proof.
  intros Hs g. destruct (Hs g) as [Hkey Hun].
  pose proof (iteration_by_resolved remote gene s) as Hit.
  rewrite (agree_candidates remote remote_unchanging gene s init_state) in Hit.
  fold (resolution remote gene) in Hit.
  destruct (resolution remote gene) as [[gene_id cands]|] eqn:Hres.
  - destruct Hit as [-> Hsame]. split.
    + intros Hg. destruct (decide (gene = g)) as [<- | Hne].
      * rewrite Hres. eauto.
      * rewrite lookup_insert_ne in Hg by exact Hne. auto.
    + intros Hg. apply Hun, Hsame, Hg.
  - destruct Hit as [-> Hmore]. split; [exact Hkey|].
    intros Hg. apply Hmore in Hg. destruct Hg as [Hg | ->]; auto.
Qed.

Lemma loop_consistent all_genes : forall s,
  consistent remote s -> consistent remote (loop remote all_genes s).
Proof.
  induction all_genes as [|gene rest IH]; intros s Hs; [exact Hs|].
  rewrite loop_cons. apply IH, iteration_consistent, Hs.
Qed.

Lemma start_consistent all_genes : consistent remote (start all_genes).
Proof.
  intros g. unfold start, unresolved. cbn. split.
  - intros Hg. rewrite lookup_empty in Hg. destruct Hg; discriminate.
  - intros [].
Qed.

End Consistent.

(** C9 (as amended): when no symbol occurs twice in the input, or when
    the remote answers every request the same way throughout the run,
    no symbol is both a key of the dictionary and listed as unresolved
    when the run ends. *)
Theorem resolved_and_unresolved_are_disjoint (remote : Remote)
    (all_genes : list string) (g : string) :
  List.NoDup all_genes \/ unchanging remote ->
  ~ (is_Some (gene_id_dict (main remote all_genes) !! g) /\
     In g (unresolved (main remote all_genes))).
Proof.
  intros [Hnd | Hsame] [Hkey Hun]; unfold main in *.
  - destruct (loop_decided remote all_genes [] (start all_genes)
                (start_decided all_genes) Hnd) as (_ & _ & Hsep).
    exact (Hsep g Hkey Hun).
  - destruct (loop_consistent remote Hsame all_genes (start all_genes)
                (start_consistent remote all_genes) g) as [Hres Hnone].
    specialize (Hres Hkey). rewrite (Hnone Hun) in Hres.
    destruct Hres; discriminate.
Qed.

Lemma resolved_and_unresolved_are_disjoint_witness :
  ~ (is_Some (gene_id_dict (main remote_history ["B"; "A"; "B"; "A"]) !! "A") /\
     In "A" (unresolved (main remote_history ["B"; "A"; "B"; "A"]))) /\
  ~ (is_Some (gene_id_dict (main remote_outage ["A"; "B"]) !! "B") /\
     In "B" (unresolved (main remote_outage ["A"; "B"]))).
Proof.
  split.
  - refine (resolved_and_unresolved_are_disjoint remote_history
              ["B"; "A"; "B"; "A"] "A" _).
    right. intros n m rq. reflexivity.
  - refine (resolved_and_unresolved_are_disjoint remote_outage
              ["A"; "B"] "B" _).
    left. repeat constructor; cbn; intuition discriminate.
Defined.

(** C9 (counterexample to the claim as stated): the symbol A is given
    twice; the first time it is resolved, the second time the service is
    down. When the run ends A is a key of the dictionary and is listed
    in [genes_None.txt]. *)
Lemma symbol_resolved_then_failed_is_in_both :
  gene_id_dict (main remote_outage ["A"; "A"]) !! "A" = Some "1" /\
  genes_None (main remote_outage ["A"; "A"]) = ["A"] /\
  is_Some (gene_id_dict (main remote_outage ["A"; "A"]) !! "A") /\
  In "A" (unresolved (main remote_outage ["A"; "A"])).
Proof.
  assert (H : gene_id_dict (main remote_outage ["A"; "A"]) !! "A" = Some "1")
    by (vm_compute; reflexivity).
  split; [exact H|]. split; [vm_compute; reflexivity|].
  split; [rewrite H; eauto|].
  vm_compute. left. reflexivity.
Qed.

(** * Further properties of the script *)

(** ** More on the retry policy *)

Section RetryMore.

Variable remote : Remote.

Lemma retry_returns rq n j r s :
  (j <= n)%nat ->
  (forall k, (k < j)%nat -> transient (remote (clock s + k)%nat rq) = true) ->
  remote (clock s + j)%nat rq = GetReturns r ->
  status_ok r = true ->
  retry_from 3 isinstance_RequestException (http_call remote rq) n s =
  (after_get rq (waited rq j s), Ok r).
Proof.
  intros Hle Htr Hj Hok. rewrite (retry_from_waits remote rq j n s); auto.
  assert (Hrun : http_call remote rq (waited rq j s) =
                 (after_get rq (waited rq j s), Ok r)).
  { rewrite http_call_run, waited_clock, Hj. cbn. rewrite Hok. reflexivity. }
  destruct (n - j)%nat; cbn [retry_from]; rewrite Hrun; reflexivity.
Qed.

(** Whatever the remote does, the decorator makes between one and
    [S n] attempts, with a wait before each attempt but the first. *)
Lemma retry_from_shape rq n : forall s,
  exists k,
    (1 <= k <= S n)%nat /\
    trace (fst (retry_from 3 isinstance_RequestException
                  (http_call remote rq) n s)) = trace s ++ wire_of rq k /\
    clock (fst (retry_from 3 isinstance_RequestException
                  (http_call remote rq) n s)) = (clock s + k)%nat.
Proof.
  induction n as [|n IH]; intros s; cbn [retry_from]; rewrite http_call_run;
    destruct (attempt_outcome (remote (clock s) rq)) as [r|e];
    try (exists 1%nat; cbn; split; [lia | split; [reflexivity | lia]]);
    destruct (isinstance_RequestException e);
    try (exists 1%nat; cbn; split; [lia | split; [reflexivity | lia]]).
  change ((emit (EvSleep 3) ;;; retry_from 3 isinstance_RequestException
             (http_call remote rq) n) (after_get rq s))
    with (retry_from 3 isinstance_RequestException
            (http_call remote rq) n (after_sleep (after_get rq s))).
  destruct (IH (after_sleep (after_get rq s))) as (k & Hk & Ht & Hc).
  exists (S k). rewrite Ht, Hc. cbn [after_sleep after_get emit modify fst trace clock].
  split; [lia|]. split; [|lia].
  rewrite <- !app_assoc. destruct k as [|k]; [lia|]. reflexivity.
Qed.

End RetryMore.

(** X1: when the first [j] attempts of a call fail in the retried class
    ([j] at most five) and the next one is answered with a status that
    passes [raise_for_status], the call returns that response after
    exactly [j + 1] requests and [j] waits of three seconds. *)
Theorem retry_recovers (remote : Remote) (rq : Request) (s : State)
    (j : nat) (r : Response) :
  (j < 6)%nat ->
  (forall k, (k < j)%nat -> transient (remote (clock s + k)%nat rq) = true) ->
  remote (clock s + j)%nat rq = GetReturns r ->
  status_ok r = true ->
  exists s',
    call_of remote rq s = (s', Ok r) /\
    trace s' = trace s ++ EvCall rq :: wire_of rq (S j) /\
    clock s' = (clock s + S j)%nat.
Proof.
  intros Hj Htr Hat Hok. eexists. rewrite call_of_unfold.
  rewrite (retry_returns remote rq 5 j r) by (auto; lia).
  split; [reflexivity|]. split.
  - rewrite waited_trace. cbn [emit modify fst trace].
    rewrite <- app_assoc. reflexivity.
  - cbn [after_get clock]. rewrite waited_clock. cbn. lia.
Qed.

Lemma retry_recovers_witness :
  exists s',
    call_of remote_recovering (ESearch "TP53" 25 "relevance") init_state =
      (s', Ok {| status_code := 200; body := BodyJson (Some ["7157"]) |}) /\
    trace s' =
      trace init_state ++
      EvCall (ESearch "TP53" 25 "relevance") ::
      wire_of (ESearch "TP53" 25 "relevance") 3 /\
    clock s' = (clock init_state + 3)%nat.
Proof.
  refine (retry_recovers remote_recovering (ESearch "TP53" 25 "relevance")
            init_state 2 _ _ _ _ _).
  - lia.
  - intros k Hk. destruct k as [|[|k]]; [reflexivity | reflexivity | lia].
  - reflexivity.
  - reflexivity.
Defined.

(** X2: whatever the remote answers, one call of [call_esearch] or
    [call_efetch] sends at least one and at most six requests, waits
    three seconds between any two of them and nowhere else, and adds
    nothing else to the trace. *)
Theorem call_sends_one_to_six_requests (remote : Remote) (rq : Request)
    (s : State) :
  exists k,
    (1 <= k <= 6)%nat /\
    trace (fst (call_of remote rq s)) = trace s ++ EvCall rq :: wire_of rq k /\
    clock (fst (call_of remote rq s)) = (clock s + k)%nat.
Proof.
  rewrite call_of_unfold.
  destruct (retry_from_shape remote rq 5 (fst (emit (EvCall rq) s)))
    as (k & Hk & Ht & Hc).
  exists k. rewrite Ht, Hc. cbn [emit modify fst trace clock].
  rewrite <- app_assoc. auto.
Qed.

(** ** Symbols with no candidate or a single one *)

Lemma bind_ok {A B} (m : M A) (k : A -> M B) s s1 a :
  m s = (s1, Ok a) -> bind m k s = k a s1.
Proof. intros H. unfold bind. rewrite H. reflexivity. Qed.


Lemma bind_cong {A B} (m m' : M A) (k : A -> M B) s s' :
  m s = m' s' -> bind m k s = bind m' k s'.
Proof. intros H. unfold bind. rewrite H. reflexivity. Qed.

Lemma json_idlist_ok r ids s :
  body r = BodyJson (Some ids) -> json_idlist r s = (s, Ok ids).
Proof. intros H. unfold json_idlist. rewrite H. reflexivity. Qed.

Lemma fromstring_ok r root s :
  body r = BodyXml root -> fromstring r s = (s, Ok root).
Proof. intros H. unfold fromstring. rewrite H. reflexivity. Qed.

Section FewCandidates.

Variable remote : Remote.

Lemma search_run gene ids s :
  answers remote (ESearch gene 25 "relevance") (BodyJson (Some ids)) ->
  exists s0 r,
    call_esearch remote gene 25 "relevance" s = (s0, Ok r) /\
    body r = BodyJson (Some ids) /\
    calls (ESearch gene 25 "relevance") s s0.
Proof.
  intros H.
  destruct (call_of_answers remote (ESearch gene 25 "relevance") _ s H)
    as (s0 & r & E & Hb).
  cbn [call_of] in E. exists s0, r. split; [exact E|]. split; [exact Hb|].
  pose proof (calls_call_esearch remote gene 25 "relevance" s) as Hc.
  rewrite E in Hc. exact Hc.
Qed.

Lemma fetch_run gene_id root s :
  answers remote (EFetch gene_id) (BodyXml root) ->
  exists s1 r,
    call_efetch remote gene_id s = (s1, Ok r) /\
    body r = BodyXml root /\
    calls (EFetch gene_id) s s1.
Proof.
  intros H.
  destruct (call_of_answers remote (EFetch gene_id) _ s H)
    as (s1 & r & E & Hb).
  cbn [call_of] in E. exists s1, r. split; [exact E|]. split; [exact Hb|].
  pose proof (calls_call_efetch remote gene_id s) as Hc.
  rewrite E in Hc. exact Hc.
Qed.

(** The iteration of a symbol with one candidate, up to the test of the
    discontinuation marker. *)
Lemma sole_candidate_run gene gene_id root s :
  answers remote (ESearch gene 25 "relevance") (BodyJson (Some [gene_id])) ->
  answers remote (EFetch gene_id) (BodyXml root) ->
  exists s1,
    check_gene_id s1 = check_gene_id s /\
    gene_id_dict s1 = gene_id_dict s /\
    log_file s1 = log_file s /\
    genes_None s1 = genes_None s /\
    genes_NCBI_Discontinued_1 s1 = genes_NCBI_Discontinued_1 s /\
    fetch_calls (trace s1) = fetch_calls (trace s) ++ [gene_id] /\
    try_body remote gene s =
      (r <- (if is_discontinued root
             then shown <- read_check_gene_id ;;
                  log_write (LogDiscontinuedSole gene shown) ;;;
                  write_Discontinued_1 gene gene_id ;;;
                  ret None
             else log_write (LogUnique gene gene_id) ;;;
                  ret (Some (gene_id, []))) ;;
       match r with
       | None => ret tt
       | Some (gene_id, candidate_gene_id) =>
           dict_set gene (final_gene_id gene_id candidate_gene_id) ;;;
           log_write (LogSuccess gene (final_gene_id gene_id candidate_gene_id))
       end) s1.
Proof.
  intros Hsearch Hfetch.
  destruct (search_run gene [gene_id] s Hsearch) as (s0 & r1 & E1 & Hb1 & Hc1).
  destruct (fetch_run gene_id root s0 Hfetch) as (s1 & r2 & E2 & Hb2 & Hc2).
  destruct Hc1 as (Hk1 & Hd1 & Hl1 & Hn1 & H11 & _ & _ & Hf1).
  destruct Hc2 as (Hk2 & Hd2 & Hl2 & Hn2 & H12 & _ & _ & Hf2).
  cbn in Hf1, Hf2. rewrite app_nil_r in Hf1.
  exists s1. repeat (split; [congruence|]).
  unfold try_body. apply bind_cong. unfold candidates.
  rewrite (bind_ok _ _ _ _ _ E1).
  rewrite (bind_ok _ _ _ _ _ (json_idlist_ok r1 _ s0 Hb1)).
  rewrite (bind_ok _ _ _ _ _ E2).
  rewrite (bind_ok _ _ _ _ _ (fromstring_ok r2 _ s1 Hb2)).
  unfold is_discontinued.
  destruct (find discontinue_date_path root); reflexivity.
Qed.

End FewCandidates.

(** X3: a symbol whose search returns no identifier is written to
    [genes_None.txt] and logged as not found; the dictionary and the
    other lists are left alone and [call_efetch] is not called. *)
Theorem no_candidate_is_filed_as_none (remote : Remote) (gene : string)
    (s : State) :
  answers remote (ESearch gene 25 "relevance") (BodyJson (Some [])) ->
  gene_id_dict (iteration remote gene s) = gene_id_dict s /\
  genes_None (iteration remote gene s) = genes_None s ++ [gene] /\
  genes_NCBI_Discontinued_1 (iteration remote gene s) =
    genes_NCBI_Discontinued_1 s /\
  log_file (iteration remote gene s) = log_file s ++ [LogNotFound gene] /\
  fetch_calls (trace (iteration remote gene s)) = fetch_calls (trace s).
Proof.
  intros Hsearch.
  destruct (search_run remote gene [] s Hsearch) as (s0 & r & E & Hb & Hc).
  destruct Hc as (_ & Hd & Hl & Hn & H1 & _ & _ & Hf).
  cbn in Hf. rewrite app_nil_r in Hf.
  assert (Hit : iteration remote gene s =
    fst ((log_write (LogNotFound gene) ;;; write_genes_None gene) s0)).
  { assert (Hc : candidates remote gene s =
      (log_write (LogNotFound gene) ;;; write_genes_None gene ;;; ret None) s0).
    { unfold candidates. rewrite (bind_ok _ _ _ _ _ E).
      rewrite (bind_ok _ _ _ _ _ (json_idlist_ok r _ s0 Hb)). reflexivity. }
    unfold iteration, try_body. unfold bind at 1. rewrite Hc. reflexivity. }
  rewrite Hit. unfold bind, log_write, write_genes_None, modify. simpl_state.
  rewrite Hd, Hl, Hn, H1, Hf. auto.
Qed.

Lemma no_candidate_is_filed_as_none_witness :
  gene_id_dict (iteration remote_history "FOO" init_state) =
    gene_id_dict init_state /\
  genes_None (iteration remote_history "FOO" init_state) =
    genes_None init_state ++ ["FOO"] /\
  genes_NCBI_Discontinued_1 (iteration remote_history "FOO" init_state) =
    genes_NCBI_Discontinued_1 init_state /\
  log_file (iteration remote_history "FOO" init_state) =
    log_file init_state ++ [LogNotFound "FOO"] /\
  fetch_calls (trace (iteration remote_history "FOO" init_state)) =
    fetch_calls (trace init_state).
Proof.
  refine (no_candidate_is_filed_as_none remote_history "FOO" init_state _).
  intros n. eexists. split; [reflexivity | split; reflexivity].
Defined.

(** X4: a symbol whose search returns one identifier, with a record that
    carries no discontinuation marker, is mapped to that identifier after
    a single fetch, whatever the official symbol and the synonyms of the
    record are; the log shows the unique hit and the success. *)
Theorem sole_live_candidate_is_accepted (remote : Remote)
    (gene gene_id : string) (root : Element) (s : State) :
  answers remote (ESearch gene 25 "relevance") (BodyJson (Some [gene_id])) ->
  answers remote (EFetch gene_id) (BodyXml root) ->
  is_discontinued root = false ->
  gene_id_dict (iteration remote gene s) =
    <[gene := gene_id]> (gene_id_dict s) /\
  log_file (iteration remote gene s) =
    log_file s ++ [LogUnique gene gene_id; LogSuccess gene gene_id] /\
  unresolved (iteration remote gene s) = unresolved s /\
  fetch_calls (trace (iteration remote gene s)) =
    fetch_calls (trace s) ++ [gene_id].
Proof.
  intros Hsearch Hfetch Hlive.
  destruct (sole_candidate_run remote gene gene_id root s Hsearch Hfetch)
    as (s1 & _ & Hd & Hl & Hn & H1 & Hf & E).
  rewrite Hlive in E. unfold iteration. rewrite E.
  unfold unresolved, bind, log_write, dict_set, modify, ret. simpl_state.
  rewrite Hd, Hl, Hn, H1, Hf, <- app_assoc. auto.
Qed.

Lemma sole_live_candidate_is_accepted_witness :
  gene_id_dict (iteration remote_renamed "TP53" init_state) =
    <["TP53" := "7157"]> (gene_id_dict init_state) /\
  log_file (iteration remote_renamed "TP53" init_state) =
    log_file init_state ++
    [LogUnique "TP53" "7157"; LogSuccess "TP53" "7157"] /\
  unresolved (iteration remote_renamed "TP53" init_state) =
    unresolved init_state /\
  fetch_calls (trace (iteration remote_renamed "TP53" init_state)) =
    fetch_calls (trace init_state) ++ ["7157"].
Proof.
  refine (sole_live_candidate_is_accepted remote_renamed "TP53" "7157"
            (gene_record false ["P53"] []) init_state _ _ _).
  - intros n. eexists. split; [reflexivity | split; reflexivity].
  - intros n. eexists. split; [reflexivity | split; reflexivity].
  - reflexivity.
Defined.

(** X5: a symbol whose only candidate is discontinued is never added to
    the dictionary, whatever was run before it: it is listed either in
    [genes_None.txt] or in [genes_NCBI_Discontinued_1.txt]. *)
Theorem sole_discontinued_is_never_stored (remote : Remote)
    (gene gene_id : string) (root : Element) (s : State) :
  answers remote (ESearch gene 25 "relevance") (BodyJson (Some [gene_id])) ->
  answers remote (EFetch gene_id) (BodyXml root) ->
  is_discontinued root = true ->
  gene_id_dict (iteration remote gene s) = gene_id_dict s /\
  (genes_None (iteration remote gene s) = genes_None s ++ [gene] /\
   genes_NCBI_Discontinued_1 (iteration remote gene s) =
     genes_NCBI_Discontinued_1 s
   \/
   genes_None (iteration remote gene s) = genes_None s /\
   genes_NCBI_Discontinued_1 (iteration remote gene s) =
     genes_NCBI_Discontinued_1 s ++ [(gene, gene_id)]).
Proof.
  intros Hsearch Hfetch Hdisc.
  destruct (sole_candidate_run remote gene gene_id root s Hsearch Hfetch)
    as (s1 & Hc & Hd & Hl & Hn & H1 & Hf & E).
  rewrite Hdisc in E. unfold iteration. rewrite E.
  unfold bind, read_check_gene_id.
  destruct (check_gene_id s1) as [shown|]; cbn;
    rewrite Hd, Hn, H1; auto.
Qed.

Lemma sole_discontinued_is_never_stored_witness :
  gene_id_dict (iteration remote_history "A" init_state) =
    gene_id_dict init_state /\
  (genes_None (iteration remote_history "A" init_state) =
     genes_None init_state ++ ["A"] /\
   genes_NCBI_Discontinued_1 (iteration remote_history "A" init_state) =
     genes_NCBI_Discontinued_1 init_state
   \/
   genes_None (iteration remote_history "A" init_state) =
     genes_None init_state /\
   genes_NCBI_Discontinued_1 (iteration remote_history "A" init_state) =
     genes_NCBI_Discontinued_1 init_state ++ [("A", "7")]).
Proof.
  refine (sole_discontinued_is_never_stored remote_history "A" "7"
            (gene_record true ["A"] []) init_state _ _ _).
  - intros n. eexists. split; [reflexivity | split; reflexivity].
  - intros n. eexists. split; [reflexivity | split; reflexivity].
  - reflexivity.
Defined.

(** X6: when the name [check_gene_id] is bound, the symbol whose only
    candidate is discontinued is appended to
    [genes_NCBI_Discontinued_1.txt] with its own identifier, while the
    line written to the log shows the value the name was left with, the
    last candidate checked for an earlier symbol. *)
Theorem sole_discontinued_logs_stale_identifier (remote : Remote)
    (gene gene_id stale : string) (root : Element) (s : State) :
  answers remote (ESearch gene 25 "relevance") (BodyJson (Some [gene_id])) ->
  answers remote (EFetch gene_id) (BodyXml root) ->
  is_discontinued root = true ->
  check_gene_id s = Some stale ->
  genes_NCBI_Discontinued_1 (iteration remote gene s) =
    genes_NCBI_Discontinued_1 s ++ [(gene, gene_id)] /\
  log_file (iteration remote gene s) =
    log_file s ++ [LogDiscontinuedSole gene stale] /\
  genes_None (iteration remote gene s) = genes_None s /\
  gene_id_dict (iteration remote gene s) = gene_id_dict s.
Proof.
  intros Hsearch Hfetch Hdisc Hbound.
  destruct (sole_candidate_run remote gene gene_id root s Hsearch Hfetch)
    as (s1 & Hc & Hd & Hl & Hn & H1 & Hf & E).
  rewrite Hdisc in E. unfold iteration. rewrite E.
  unfold bind, read_check_gene_id. rewrite Hc, Hbound. cbn.
  rewrite Hd, Hl, Hn, H1. auto.
Qed.

Lemma sole_discontinued_logs_stale_identifier_witness :
  genes_NCBI_Discontinued_1
    (iteration remote_history "A" (main remote_history ["B"])) =
    genes_NCBI_Discontinued_1 (main remote_history ["B"]) ++ [("A", "7")] /\
  log_file (iteration remote_history "A" (main remote_history ["B"])) =
    log_file (main remote_history ["B"]) ++ [LogDiscontinuedSole "A" "1"] /\
  genes_None (iteration remote_history "A" (main remote_history ["B"])) =
    genes_None (main remote_history ["B"]) /\
  gene_id_dict (iteration remote_history "A" (main remote_history ["B"])) =
    gene_id_dict (main remote_history ["B"]).
Proof.
  refine (sole_discontinued_logs_stale_identifier remote_history "A" "7" "1"
            (gene_record true ["A"] []) (main remote_history ["B"]) _ _ _ _).
  - intros n. eexists. split; [reflexivity | split; reflexivity].
  - intros n. eexists. split; [reflexivity | split; reflexivity].
  - reflexivity.
  - vm_compute. reflexivity.
Defined.

(** ** What the run says about every input symbol *)

Section Coverage.

Variable remote : Remote.

Lemma iteration_keeps gene s g :
  (is_Some (gene_id_dict s !! g) ->
   is_Some (gene_id_dict (iteration remote gene s) !! g)) /\
  (In g (unresolved s) -> In g (unresolved (iteration remote gene s))).
Proof.
  destruct (settled_cases gene s _ (iteration_settled remote gene s))
    as [(gene_id & -> & Hsame) | (-> & Hmore)].
  - split.
    + intros Hg. destruct (decide (gene = g)) as [<- | Hne].
      * rewrite lookup_insert_eq. eauto.
      * rewrite lookup_insert_ne by exact Hne. exact Hg.
    + intros Hg. apply Hsame. exact Hg.
  - split; [auto|]. intros Hg. apply Hmore. left. exact Hg.
Qed.

Lemma iteration_settles gene s :
  is_Some (gene_id_dict (iteration remote gene s) !! gene) \/
  In gene (unresolved (iteration remote gene s)).
Proof.
  destruct (settled_cases gene s _ (iteration_settled remote gene s))
    as [(gene_id & -> & Hsame) | (-> & Hmore)].
  - left. rewrite lookup_insert_eq. eauto.
  - right. apply Hmore. right. reflexivity.
Qed.

Lemma iteration_adds_only gene s g :
  (is_Some (gene_id_dict (iteration remote gene s) !! g) ->
   is_Some (gene_id_dict s !! g) \/ g = gene) /\
  (In g (unresolved (iteration remote gene s)) ->
   In g (unresolved s) \/ g = gene).
Proof.
  destruct (settled_cases gene s _ (iteration_settled remote gene s))
    as [(gene_id & -> & Hsame) | (-> & Hmore)].
  - split.
    + intros Hg. destruct (decide (gene = g)) as [<- | Hne]; [auto|].
      rewrite lookup_insert_ne in Hg by exact Hne. auto.
    + intros Hg. left. apply Hsame. exact Hg.
  - split; [auto|]. intros Hg. apply Hmore. exact Hg.
Qed.

Lemma loop_keeps all_genes g : forall s,
  is_Some (gene_id_dict s !! g) \/ In g (unresolved s) ->
  is_Some (gene_id_dict (loop remote all_genes s) !! g) \/
  In g (unresolved (loop remote all_genes s)).
Proof.
  induction all_genes as [|gene rest IH]; intros s H; [exact H|].
  rewrite loop_cons. apply IH.
  destruct (iteration_keeps gene s g) as [Hk Hu]. tauto.
Qed.

Lemma loop_settles all_genes g : forall s,
  In g all_genes ->
  is_Some (gene_id_dict (loop remote all_genes s) !! g) \/
  In g (unresolved (loop remote all_genes s)).
Proof.
  induction all_genes as [|gene rest IH]; intros s Hin; [destruct Hin|].
  rewrite loop_cons. destruct Hin as [<- | Hin].
  - apply loop_keeps. apply iteration_settles.
  - apply IH. exact Hin.
Qed.

Lemma loop_adds_only all_genes g : forall s,
  is_Some (gene_id_dict (loop remote all_genes s) !! g) \/
  In g (unresolved (loop remote all_genes s)) ->
  is_Some (gene_id_dict s !! g) \/ In g (unresolved s) \/ In g all_genes.
Proof.
  induction all_genes as [|gene rest IH]; intros s H; [tauto|].
  rewrite loop_cons in H. apply IH in H.
  destruct (iteration_adds_only gene s g) as [Hk Hu]. cbn.
  intuition.
Qed.

End Coverage.

(** X7: when the run ends, the symbols that are a key of the dictionary
    or are listed in [genes_None.txt] or
    [genes_NCBI_Discontinued_1.txt] are exactly the input symbols: no
    input symbol is dropped without a trace, whatever the remote did,
    and nothing else is ever recorded. *)
Theorem every_input_symbol_is_accounted_for (remote : Remote)
    (all_genes : list string) (g : string) :
  In g all_genes <->
  is_Some (gene_id_dict (main remote all_genes) !! g) \/
  In g (unresolved (main remote all_genes)).
Proof.
  unfold main. split.
  - apply loop_settles.
  - intros H. apply loop_adds_only in H.
    destruct H as [H | [H | H]]; [| |exact H].
    + cbn in H. rewrite lookup_empty in H. destruct H; discriminate.
    + destruct H.
Qed.

(** ** Symbols with several candidates *)

Lemma loop_scan remote gene record_of ids : forall gene_id cands s,
  (forall i, In i ids -> answers remote (EFetch i) (BodyXml (record_of i))) ->
  exists s',
    for_check_gene_id remote gene ids gene_id cands s =
      (s', Ok (scan gene record_of ids gene_id cands)).
Proof.
  induction ids as [|check_id rest IH]; intros gene_id cands s Hans.
  - exists s. reflexivity.
  - destruct (loop_step remote gene check_id rest gene_id cands
                (record_of check_id) s)
      as (s1 & _ & _ & E); [apply Hans; left; reflexivity|].
    rewrite E. cbn [scan].
    assert (Hans' : forall i, In i rest ->
              answers remote (EFetch i) (BodyXml (record_of i)))
      by (intros; apply Hans; right; assumption).
    destruct (is_discontinued (record_of check_id)); [apply IH, Hans'|].
    destruct (gene_eq gene _); [eauto|].
    destruct (gene_in gene _); apply IH, Hans'.
Qed.

(** Either the loop ran to its end, keeping [gene_id] and adding live
    alias matches only, or it stopped at a live exact match. *)
Lemma scan_spec gene record_of ids : forall gene_id cands,
  (fst (scan gene record_of ids gene_id cands) = gene_id /\
   exists more,
     snd (scan gene record_of ids gene_id cands) = cands ++ more /\
     forall c, In c more ->
       In c ids /\ alias_match gene (record_of c) = true) \/
  (In (fst (scan gene record_of ids gene_id cands)) ids /\
   exact_match gene
     (record_of (fst (scan gene record_of ids gene_id cands))) = true /\
   snd (scan gene record_of ids gene_id cands) = []).
Proof.
  induction ids as [|check_id rest IH]; intros gene_id cands; cbn [scan].
  - left. split; [reflexivity|]. exists []. rewrite app_nil_r.
    split; [reflexivity | intros c []].
  - assert (Hlift : forall c0,
      (fst (scan gene record_of rest gene_id c0) = gene_id /\
       exists more,
         snd (scan gene record_of rest gene_id c0) = c0 ++ more /\
         forall c, In c more ->
           In c rest /\ alias_match gene (record_of c) = true) \/
      (In (fst (scan gene record_of rest gene_id c0)) rest /\
       exact_match gene
         (record_of (fst (scan gene record_of rest gene_id c0))) = true /\
       snd (scan gene record_of rest gene_id c0) = []) ->
      (fst (scan gene record_of rest gene_id c0) = gene_id /\
       exists more,
         snd (scan gene record_of rest gene_id c0) = c0 ++ more /\
         forall c, In c more ->
           In c (check_id :: rest) /\ alias_match gene (record_of c) = true) \/
      (In (fst (scan gene record_of rest gene_id c0)) (check_id :: rest) /\
       exact_match gene
         (record_of (fst (scan gene record_of rest gene_id c0))) = true /\
       snd (scan gene record_of rest gene_id c0) = [])).
    { intros c0 [(Hg & more & Hm & Hall) | (Hin & Hex & Hnil)].
      - left. split; [exact Hg|]. exists more. split; [exact Hm|].
        intros c Hc. destruct (Hall c Hc). split; [right|]; assumption.
      - right. split; [right; exact Hin | split; assumption]. }
    destruct (is_discontinued (record_of check_id)) eqn:Hd;
      [apply Hlift, IH|].
    destruct (gene_eq gene (official_symbol_of (record_of check_id))) eqn:He.
    { right. cbn. split; [left; reflexivity|]. split; [|reflexivity].
      unfold exact_match. rewrite Hd, He. reflexivity. }
    destruct (gene_in gene (gene_aliases_of (record_of check_id))) eqn:Ha;
      [|apply Hlift, IH].
    destruct (IH gene_id (cands ++ [check_id]))
      as [(Hg & more & Hm & Hall) | (Hin & Hex & Hnil)].
    + left. split; [exact Hg|]. exists (check_id :: more).
      split; [rewrite Hm, <- app_assoc; reflexivity|].
      intros c [<- | Hc].
      * split; [left; reflexivity|]. unfold alias_match.
        rewrite Hd, Ha. reflexivity.
      * destruct (Hall c Hc). split; [right|]; assumption.
    + right. split; [right; exact Hin | split; assumption].
Qed.

(** X8: a symbol whose search returns two identifiers or more, all with
    records that can be fetched, is always resolved, to one of the
    returned identifiers: a live record whose official symbol is the
    input symbol, a live record that lists it as a synonym, or else the
    top identifier of the search. No unresolved list is written. *)
Theorem several_candidates_always_resolve (remote : Remote) (gene : string)
    (ids_list : list string) (record_of : string -> Element) (s : State) :
  serves remote gene ids_list record_of ->
  (2 <= length ids_list)%nat ->
  exists gene_id,
    gene_id_dict (iteration remote gene s) =
      <[gene := gene_id]> (gene_id_dict s) /\
    gene_id = stored (scan gene record_of ids_list (hd "" ids_list) []) /\
    In gene_id ids_list /\
    (exact_match gene (record_of gene_id) = true \/
     alias_match gene (record_of gene_id) = true \/
     ids_list !! 0%nat = Some gene_id) /\
    unresolved (iteration remote gene s) = unresolved s.
Proof.
  intros Hserves Hlen.
  destruct ids_list as [|id0 [|id1 more]]; cbn in Hlen; try lia.
  set (ids := id0 :: id1 :: more) in *.
  destruct (iteration_multi remote gene id0 id1 more record_of s Hserves)
    as (s1 & _ & _ & Hiter).
  destruct Hserves as [_ Hrec].
  destruct (loop_scan remote gene record_of ids id0 [] s1 Hrec) as (s2 & E).
  destruct (scan gene record_of ids id0 []) as [gid cands] eqn:Hscan.
  destruct (Hiter s2 gid cands E) as (Hcand & Hdict & _ & _).
  exists (final_gene_id gid cands). split; [exact Hdict|].
  split; [change (hd "" ids) with id0; rewrite Hscan; reflexivity|].
  assert (Hun : unresolved (iteration remote gene s) = unresolved s).
  { pose proof (candidates_footprint remote gene s s2 _ Hcand)
      as (_ & _ & _ & Hn & H1).
    unfold iteration, try_body. unfold bind at 1. rewrite Hcand.
    unfold unresolved, bind, dict_set, log_write, modify. simpl_state.
    rewrite Hn, H1. reflexivity. }
  pose proof (scan_spec gene record_of ids id0 []) as Hspec.
  rewrite Hscan in Hspec. cbn [fst snd app] in Hspec.
  destruct Hspec as [(-> & later & -> & Hall) | (Hin & Hex & ->)].
  - destruct later as [|c later]; cbn [final_gene_id].
    + split; [left; reflexivity|]. split; [|exact Hun].
      right. right. reflexivity.
    + destruct (Hall c (or_introl eq_refl)) as [Hin Ha].
      split; [exact Hin|]. split; [|exact Hun]. right. left. exact Ha.
  - cbn [final_gene_id]. split; [exact Hin|]. split; [|exact Hun].
    left. exact Hex.
Qed.

Lemma several_candidates_always_resolve_witness :
  exists gene_id,
    gene_id_dict (iteration remote_alias "X" init_state) =
      <["X" := gene_id]> (gene_id_dict init_state) /\
    gene_id = stored (scan "X" (lookup_record records_alias)
                        ["10"; "20"; "30"] (hd "" ["10"; "20"; "30"]) []) /\
    In gene_id ["10"; "20"; "30"] /\
    (exact_match "X" (lookup_record records_alias gene_id) = true \/
     alias_match "X" (lookup_record records_alias gene_id) = true \/
     ["10"; "20"; "30"] !! 0%nat = Some gene_id) /\
    unresolved (iteration remote_alias "X" init_state) = unresolved init_state.
Proof.
  refine (several_candidates_always_resolve remote_alias "X"
            ["10"; "20"; "30"] (lookup_record records_alias) init_state _ _).
  - serves_table.
  - cbn. lia.
Defined.

(** X9: with two candidates or more and no live record whose official
    symbol is the input symbol, the loop does not stop early:
    [call_efetch] is called once for every candidate, in relevance
    order, and exactly the discontinued candidates are appended to
    [genes_NCBI_Discontinued_2.txt], in that order. *)
Theorem without_exact_match_every_candidate_is_fetched (remote : Remote)
    (gene : string) (ids_list : list string) (record_of : string -> Element)
    (s : State) :
  serves remote gene ids_list record_of ->
  (2 <= length ids_list)%nat ->
  (forall i, In i ids_list -> exact_match gene (record_of i) = false) ->
  fetch_calls (trace (iteration remote gene s)) =
    fetch_calls (trace s) ++ ids_list /\
  genes_NCBI_Discontinued_2 (iteration remote gene s) =
    genes_NCBI_Discontinued_2 s ++
    map (pair gene)
        (List.filter (fun i => is_discontinued (record_of i)) ids_list).
Proof.
  intros Hserves Hlen Hno.
  destruct ids_list as [|id0 [|id1 more]]; cbn in Hlen; try lia.
  set (ids := id0 :: id1 :: more) in *.
  destruct (iteration_multi remote gene id0 id1 more record_of s Hserves)
    as (s1 & Hf1 & Hd1 & Hiter).
  destruct Hserves as [_ Hrec].
  destruct (loop_without_exact remote gene record_of ids id0 [] s1 Hrec Hno)
    as (s2 & E & Hf2 & Hd2).
  destruct (Hiter s2 _ _ E) as (_ & _ & Hf & Hd).
  rewrite Hf, Hf2, Hf1, Hd, Hd2, Hd1. auto.
Qed.

Lemma without_exact_match_every_candidate_is_fetched_witness :
  fetch_calls (trace (iteration remote_alias "X" init_state)) =
    fetch_calls (trace init_state) ++ ["10"; "20"; "30"] /\
  genes_NCBI_Discontinued_2 (iteration remote_alias "X" init_state) =
    genes_NCBI_Discontinued_2 init_state ++
    map (pair "X")
        (List.filter (fun i => is_discontinued (lookup_record records_alias i))
                     ["10"; "20"; "30"]).
Proof.
  refine (without_exact_match_every_candidate_is_fetched remote_alias "X"
            ["10"; "20"; "30"] (lookup_record records_alias) init_state _ _ _).
  - serves_table.
  - cbn. lia.
  - intros i Hi. cbn in Hi.
    destruct Hi as [<- | [<- | [<- | []]]]; reflexivity.
Defined.

(** ** The dictionary against a remote that never changes *)

Section Dictionary.

Variable remote : Remote.
Hypothesis remote_unchanging : unchanging remote.

Lemma iteration_lookup gene s g :
  gene_id_dict (iteration remote gene s) !! g =
  match resolution remote gene with
  | Some p => if decide (gene = g) then Some (stored p)
              else gene_id_dict s !! g
  | None => gene_id_dict s !! g
  end.
Proof.
  pose proof (iteration_by_resolved remote gene s) as Hit.
  rewrite (agree_candidates remote remote_unchanging gene s init_state) in Hit.
  fold (resolution remote gene) in Hit.
  destruct (resolution remote gene) as [[gene_id cands]|].
  - destruct Hit as [-> _]. unfold stored. cbn [fst snd].
    destruct (decide (gene = g)) as [<- | Hne].
    + apply lookup_insert_eq.
    + apply lookup_insert_ne. exact Hne.
  - destruct Hit as [-> _]. reflexivity.
Qed.

Lemma loop_lookup_other all_genes g : forall s,
  ~ In g all_genes \/ resolution remote g = None ->
  gene_id_dict (loop remote all_genes s) !! g = gene_id_dict s !! g.
Proof.
  induction all_genes as [|gene rest IH]; intros s H; [reflexivity|].
  rewrite loop_cons, IH by (cbn in H; tauto).
  rewrite iteration_lookup.
  destruct (resolution remote gene) as [p|] eqn:Hres; [|reflexivity].
  destruct (decide (gene = g)) as [<- | Hne]; [|reflexivity].
  destruct H as [H | H]; [|congruence].
  exfalso. apply H. left. reflexivity.
Qed.

Lemma loop_lookup_resolved all_genes g p : forall s,
  In g all_genes -> resolution remote g = Some p ->
  gene_id_dict (loop remote all_genes s) !! g = Some (stored p).
Proof.
  induction all_genes as [|gene rest IH]; intros s Hin Hres; [destruct Hin|].
  rewrite loop_cons.
  destruct (in_dec String.string_dec g rest) as [Hrest | Hrest]; [apply IH; auto|].
  destruct Hin as [-> | Hin]; [|contradiction].
  rewrite loop_lookup_other by (left; exact Hrest).
  rewrite iteration_lookup, Hres.
  destruct (decide (g = g)); [reflexivity | contradiction].
Qed.

End Dictionary.

(** X10: against a remote that never changes its answers, the
    dictionary at the end of the run holds, for every input symbol that
    resolves when run on its own, the identifier it resolves to then,
    and holds nothing else. *)
Theorem dictionary_of_unchanging_remote (remote : Remote)
    (all_genes : list string) (g : string) :
  unchanging remote ->
  (In g all_genes ->
   gene_id_dict (main remote all_genes) !! g = stored <$> resolution remote g) /\
  (~ In g all_genes -> gene_id_dict (main remote all_genes) !! g = None).
Proof.
  intros Hsame. unfold main. split.
  - intros Hin. destruct (resolution remote g) as [p|] eqn:Hres.
    + rewrite (loop_lookup_resolved remote Hsame all_genes g p) by assumption.
      reflexivity.
    + rewrite (loop_lookup_other remote Hsame) by (right; exact Hres).
      reflexivity.
  - intros Hnot. rewrite (loop_lookup_other remote Hsame) by (left; exact Hnot).
    reflexivity.
Qed.

Lemma dictionary_of_unchanging_remote_witness :
  (In "B" ["A"; "B"; "A"] ->
   gene_id_dict (main remote_history ["A"; "B"; "A"]) !! "B" =
     stored <$> resolution remote_history "B") /\
  (~ In "B" ["A"; "B"; "A"] ->
   gene_id_dict (main remote_history ["A"; "B"; "A"]) !! "B" = None).
Proof.
  refine (dictionary_of_unchanging_remote remote_history ["A"; "B"; "A"] "B" _).
  intros n m rq. reflexivity.
Defined.

(** X11: against a remote that never changes its answers, two input
    lists with the same symbols, in any order and with any repetitions,
    give the same dictionary. *)
Theorem dictionary_ignores_order_and_repetition (remote : Remote)
    (genes1 genes2 : list string) :
  unchanging remote ->
  (forall g, In g genes1 <-> In g genes2) ->
  gene_id_dict (main remote genes1) = gene_id_dict (main remote genes2).
Proof.
  intros Hsame Hset. apply map_eq. intros g. unfold main.
  destruct (in_dec String.string_dec g genes1) as [H1 | H1].
  - assert (H2 : In g genes2) by (apply Hset; exact H1).
    destruct (resolution remote g) as [p|] eqn:Hres.
    + rewrite !(loop_lookup_resolved remote Hsame _ g p) by assumption.
      reflexivity.
    + rewrite !(loop_lookup_other remote Hsame) by (right; exact Hres).
      reflexivity.
  - assert (H2 : ~ In g genes2) by (rewrite <- Hset; exact H1).
    rewrite !(loop_lookup_other remote Hsame) by (left; assumption).
    reflexivity.
Qed.

Lemma dictionary_ignores_order_and_repetition_witness :
  gene_id_dict (main remote_history ["A"; "B"; "A"]) =
  gene_id_dict (main remote_history ["B"; "A"]).
Proof.
  refine (dictionary_ignores_order_and_repetition remote_history
            ["A"; "B"; "A"] ["B"; "A"] _ _).
  - intros n m rq. reflexivity.
  - intros g. cbn. tauto.
Defined.

(** ** Answers that cannot be read *)



(** ** When the name [check_gene_id] is bound *)

#[global] Instance keeps_bound_frame : Frame keeps_bound.
Proof. split; unfold keeps_bound; auto. Qed.

Section Bound.

Variable remote : Remote.

Lemma keeps_bound_call_efetch gene_id :
  steps keeps_bound (call_efetch remote gene_id).
Proof.
  intros s. destruct (calls_call_efetch remote gene_id s) as (Hc & _).
  unfold keeps_bound. rewrite Hc. auto.
Qed.

Lemma keeps_bound_call_esearch gene :
  steps keeps_bound (call_esearch remote gene 25 "relevance").
Proof.
  intros s.
  destruct (calls_call_esearch remote gene 25 "relevance" s) as (Hc & _).
  unfold keeps_bound. rewrite Hc. auto.
Qed.

Lemma keeps_bound_modify f :
  (forall s, is_Some (check_gene_id s) -> is_Some (check_gene_id (f s))) ->
  steps keeps_bound (modify f).
Proof. intros H s. exact (H s). Qed.

Lemma keeps_bound_for_check_gene_id gene ids : forall gene_id cands,
  steps keeps_bound (for_check_gene_id remote gene ids gene_id cands).
Proof.
  induction ids as [|check_id rest IH]; intros gene_id cands;
    cbn [for_check_gene_id].
  - apply steps_ret.
  - apply steps_bind; [apply keeps_bound_modify; cbn; eauto | intros _].
    apply steps_bind; [apply keeps_bound_call_efetch | intros response2].
    apply steps_bind.
    { unfold fromstring.
      destruct (body response2); (apply steps_raise || apply steps_ret). }
    intros root. destruct (find discontinue_date_path root).
    + apply steps_bind; [apply keeps_bound_modify; cbn; auto | intros _].
      apply steps_bind; [apply keeps_bound_modify; cbn; auto | intros _].
      apply IH.
    + apply steps_bind; [apply keeps_bound_modify; cbn; auto | intros _].
      apply steps_bind.
      { unfold pick_official.
        destruct (texts _) as [|o [|o' os]];
          [ apply steps_bind;
              [apply keeps_bound_modify; cbn; auto | intros; apply steps_ret]
          | apply steps_ret
          | apply steps_bind;
              [apply keeps_bound_modify; cbn; auto | intros; apply steps_ret] ]. }
      intros official. destruct (gene_eq gene official); [apply steps_ret|].
      destruct (gene_in gene _); apply IH.
Qed.

(** The loop over one candidate or more leaves the name bound. *)
Lemma for_check_gene_id_binds gene check_id rest gene_id cands s :
  is_Some (check_gene_id
             (fst (for_check_gene_id remote gene (check_id :: rest)
                     gene_id cands s))).
Proof.
  pose proof (keeps_bound_for_check_gene_id gene (check_id :: rest)
                gene_id cands) as Hall.
  cbn [for_check_gene_id] in *.
  match goal with |- context [bind ?m ?k s] =>
    assert (Hk : steps keeps_bound (k tt))
  end.
  { apply steps_bind; [apply keeps_bound_call_efetch | intros response2].
    apply steps_bind.
    { unfold fromstring.
      destruct (body response2); (apply steps_raise || apply steps_ret). }
    intros root. destruct (find discontinue_date_path root).
    + apply steps_bind; [apply keeps_bound_modify; cbn; auto | intros _].
      apply steps_bind; [apply keeps_bound_modify; cbn; auto | intros _].
      apply keeps_bound_for_check_gene_id.
    + apply steps_bind; [apply keeps_bound_modify; cbn; auto | intros _].
      apply steps_bind.
      { unfold pick_official.
        destruct (texts _) as [|o [|o' os]];
          [ apply steps_bind;
              [apply keeps_bound_modify; cbn; auto | intros; apply steps_ret]
          | apply steps_ret
          | apply steps_bind;
              [apply keeps_bound_modify; cbn; auto | intros; apply steps_ret] ]. }
      intros official. destruct (gene_eq gene official); [apply steps_ret|].
      destruct (gene_in gene _); apply keeps_bound_for_check_gene_id. }
  unfold bind at 1. cbn [bind_check_gene_id modify].
  apply Hk. cbn. eauto.
Qed.

(** One iteration: a bound name stays bound, and a line [LogMulti] is
    only ever added together with a binding of the name. *)
Lemma candidates_bound gene s s' o :
  candidates remote gene s = (s', o) ->
  (is_Some (check_gene_id s) -> is_Some (check_gene_id s')) /\
  (has_LogMulti (log_file s') = true ->
   has_LogMulti (log_file s) = true \/ is_Some (check_gene_id s')).
Proof.
  unfold candidates. intros H.
  pose proof (calls_call_esearch remote gene 25 "relevance" s) as Hs.
  split_bind H s1 response1 E1; rewrite E1 in Hs;
    destruct Hs as (Hc & _ & Hl & _); simpl_state_in Hc; simpl_state_in Hl;
    [|rewrite Hc, Hl; auto].
  split_bind H s2 ids_list E2; apply json_idlist_state in E2;
    [subst s2 | subst s'; rewrite Hc, Hl; auto].
  destruct ids_list as [|gene_id [|second more]].
  - run_prims H. pair_inv H. simpl_state.
    rewrite has_LogMulti_app, Hc, Hl. cbn. rewrite orb_false_r. auto.
  - pose proof (calls_call_efetch remote gene_id s1) as Hf.
    split_bind H s3 response2 E3; rewrite E3 in Hf;
      destruct Hf as (Hc' & _ & Hl' & _); simpl_state_in Hc';
      simpl_state_in Hl'; [|rewrite Hc', Hl', Hc, Hl; auto].
    split_bind H s4 root E4; apply fromstring_state in E4;
      [subst s4 | subst s'; rewrite Hc', Hl', Hc, Hl; auto].
    destruct (find discontinue_date_path root).
    + unfold read_check_gene_id in H. unfold bind at 1 in H.
      destruct (check_gene_id s3) as [shown|] eqn:Hcheck; [run_prims H|];
        pair_inv H; simpl_state;
        rewrite ?has_LogMulti_app, ?Hcheck, ?Hl', ?Hl, <- ?Hc, <- ?Hc',
          ?Hcheck; cbn; rewrite ?orb_false_r; eauto.
    + run_prims H. pair_inv H. simpl_state.
      rewrite has_LogMulti_app, Hc', Hl', Hc, Hl. cbn.
      rewrite orb_false_r. auto.
  - unfold bind at 1 in H. cbn [log_write modify] in H.
    assert (Hb : is_Some (check_gene_id s')).
    { split_bind H s3 r E3.
      - pair_inv H.
        match type of E3 with ?m ?t = _ =>
          pose proof (for_check_gene_id_binds gene gene_id (second :: more)
                        gene_id [] t) as Hb
        end.
        rewrite E3 in Hb. exact Hb.
      - match type of E3 with ?m ?t = _ =>
          pose proof (for_check_gene_id_binds gene gene_id (second :: more)
                        gene_id [] t) as Hb
        end.
        rewrite E3 in Hb. exact Hb. }
    auto.
Qed.

Lemma iteration_bound gene s :
  (is_Some (check_gene_id s) ->
   is_Some (check_gene_id (iteration remote gene s))) /\
  (has_LogMulti (log_file (iteration remote gene s)) = true ->
   has_LogMulti (log_file s) = true \/
   is_Some (check_gene_id (iteration remote gene s))).
Proof.
  unfold iteration, try_body.
  destruct (bind _ _ s) as [s' o] eqn:H.
  split_bind H s1 r E; apply candidates_bound in E; destruct E as [Hk Hm].
  - destruct r as [[gene_id cands]|].
    + run_prims H. pair_inv H. simpl_state.
      rewrite has_LogMulti_app. cbn. rewrite orb_false_r. auto.
    + pair_inv H. auto.
  - cbn. rewrite !has_LogMulti_app. cbn. rewrite !orb_false_r. auto.
Qed.

Lemma loop_bound all_genes : forall s,
  (has_LogMulti (log_file s) = true -> is_Some (check_gene_id s)) ->
  has_LogMulti (log_file (loop remote all_genes s)) = true ->
  is_Some (check_gene_id (loop remote all_genes s)).
Proof.
  induction all_genes as [|gene rest IH]; intros s Hs; [exact Hs|].
  rewrite loop_cons. apply IH.
  destruct (iteration_bound gene s) as [Hk Hm].
  intros H. destruct (Hm H) as [H' | H']; auto.
Qed.

End Bound.

(** X13: when the run ends, the name [check_gene_id] is bound if and
    only if some symbol entered the multi-candidate branch (the log has
    a line [LogMulti]): the [NameError] of line 140 can only strike
    before the first symbol with two candidates or more. *)
Theorem check_gene_id_is_bound_by_the_multi_branch (remote : Remote)
    (all_genes : list string) :
  is_Some (check_gene_id (main remote all_genes)) <->
  has_LogMulti (log_file (main remote all_genes)) = true.
Proof.
  unfold main. split.
  - intros Hb.
    destruct (has_LogMulti (log_file (loop remote all_genes (start all_genes))))
      eqn:Hm; [reflexivity|].
    rewrite (loop_check remote all_genes _ Hm) in Hb.
    cbn in Hb. destruct Hb; discriminate.
  - apply loop_bound. cbn. discriminate.
Qed.

(** * The second script: id_to_info.py *)

Lemma info_loop_failure_unbound (remote : Remote)
    (attrib_value : Element -> option string) (nums_limit : Z)
    (gene_name gene_id : string) (rest : list (string * string))
    (st : IdToInfo.InfoState) (n : State) (e : exn) :
  IdToInfo.response st = None ->
  IdToInfo.num st <> nums_limit ->
  call_efetch remote gene_id (IdToInfo.net st) = (n, Raise e) ->
  IdToInfo.loop remote attrib_value nums_limit ((gene_name, gene_id) :: rest) st =
  (IdToInfo.mkInfoState n None (IdToInfo.gene_info_dict st)
     (IdToInfo.log_file st ++ [IdToInfo.InfoFailed gene_name gene_id e])
     (IdToInfo.genes_xml st) (IdToInfo.failed_genes_id st)
     (IdToInfo.stdout st) (IdToInfo.num st) (IdToInfo.genes_info_json st),
   Raise (NameError "response")).
Proof.
  intros Hresp Hnum Hcall. cbn [IdToInfo.loop].
  destruct (Z.eqb_spec (IdToInfo.num st) nums_limit) as [Heq | _];
    [contradiction|].
  unfold IdToInfo.try_body. rewrite Hcall.
  unfold IdToInfo.except_handler. cbn [IdToInfo.response]. rewrite Hresp.
  reflexivity.
Qed.

(** X14: when the fetch of the first entry fails (retries exhausted or
    any other exception), the handler logs the failure and then reads
    the name [response], which is still unbound: the [NameError] leaves
    the handler and the script. No further entry is fetched,
    [failed_genes_id.txt] is not written and [genes_info.json] is never
    written. *)
Theorem failure_of_the_first_entry_aborts_the_script (remote : Remote)
    (attrib_value : Element -> option string)
    (gene_name gene_id : string) (rest : list (string * string))
    (n : State) (e : exn) :
  call_efetch remote gene_id init_state = (n, Raise e) ->
  exists st,
    IdToInfo.main remote attrib_value ((gene_name, gene_id) :: rest) =
      (st, Raise (NameError "response")) /\
    IdToInfo.genes_info_json st = None /\
    IdToInfo.failed_genes_id st = [] /\
    IdToInfo.gene_info_dict st = ∅ /\
    IdToInfo.log_file st =
      [IdToInfo.InfoCount (S (length rest));
       IdToInfo.InfoFailed gene_name gene_id e] /\
    fetch_calls (trace (IdToInfo.net st)) = [gene_id].
Proof.
  intros H. eexists. split.
  - unfold IdToInfo.main.
    rewrite (info_loop_failure_unbound remote attrib_value 100000
               gene_name gene_id rest _ n e);
      [reflexivity | reflexivity | cbn; discriminate | exact H].
  - cbn. repeat split.
    pose proof (calls_call_efetch remote gene_id init_state) as Hc.
    rewrite H in Hc. destruct Hc as (_ & _ & _ & _ & _ & _ & _ & Hf).
    exact Hf.
Qed.

Lemma failure_of_the_first_entry_aborts_the_script_witness :
  exists st,
    IdToInfo.main dead_remote no_attrib [("TP53", "7157"); ("X", "20")] =
      (st, Raise (NameError "response")) /\
    IdToInfo.genes_info_json st = None /\
    IdToInfo.failed_genes_id st = [] /\
    IdToInfo.gene_info_dict st = ∅ /\
    IdToInfo.log_file st =
      [IdToInfo.InfoCount (S (length [("X", "20")]));
       IdToInfo.InfoFailed "TP53" "7157" RetryError] /\
    fetch_calls (trace (IdToInfo.net st)) = ["7157"].
Proof.
  refine (failure_of_the_first_entry_aborts_the_script dead_remote no_attrib
            "TP53" "7157" [("X", "20")] _ RetryError _).
  vm_compute. reflexivity.
Defined.

(** X15: when a fetch fails after an earlier fetch has returned, the
    handler prints the text of that earlier response, the one the name
    [response] still holds, appends the entry to [failed_genes_id.txt]
    and the loop goes on with the next entry. *)
Theorem later_failure_prints_the_previous_response (remote : Remote)
    (attrib_value : Element -> option string) (nums_limit : Z)
    (gene_name gene_id : string) (rest : list (string * string))
    (st : IdToInfo.InfoState) (previous : Response) (n : State) (e : exn) :
  IdToInfo.response st = Some previous ->
  IdToInfo.num st <> nums_limit ->
  call_efetch remote gene_id (IdToInfo.net st) = (n, Raise e) ->
  IdToInfo.loop remote attrib_value nums_limit ((gene_name, gene_id) :: rest) st =
  IdToInfo.loop remote attrib_value nums_limit rest
    (IdToInfo.mkInfoState n (Some previous) (IdToInfo.gene_info_dict st)
       (IdToInfo.log_file st ++ [IdToInfo.InfoFailed gene_name gene_id e])
       (IdToInfo.genes_xml st)
       (IdToInfo.failed_genes_id st ++ [(gene_name, gene_id)])
       (IdToInfo.stdout st ++ [body previous])
       (IdToInfo.num st + 1) (IdToInfo.genes_info_json st)).
Proof.
  intros Hresp Hnum Hcall. cbn [IdToInfo.loop].
  destruct (Z.eqb_spec (IdToInfo.num st) nums_limit) as [Heq | _];
    [contradiction|].
  unfold IdToInfo.try_body. rewrite Hcall.
  unfold IdToInfo.except_handler. cbn [IdToInfo.response]. rewrite Hresp.
  reflexivity.
Qed.

Lemma later_failure_prints_the_previous_response_witness :
  IdToInfo.stdout
    (fst (IdToInfo.main remote_one_answer no_attrib
            [("TP53", "7157"); ("X", "20")])) =
    [BodyXml (gene_record false ["TP53"] ["P53"])] /\
  IdToInfo.failed_genes_id
    (fst (IdToInfo.main remote_one_answer no_attrib
            [("TP53", "7157"); ("X", "20")])) = [("X", "20")].
Proof.
  pose proof (later_failure_prints_the_previous_response remote_one_answer
                no_attrib 100000 "X" "20" []
                (IdToInfo.next_num
                   (fst (IdToInfo.try_body remote_one_answer no_attrib
                           "TP53" "7157"
                           (IdToInfo.start [("TP53", "7157"); ("X", "20")]))))
                {| status_code := 200;
                   body := BodyXml (gene_record false ["TP53"] ["P53"]) |}
                (fst (call_efetch remote_one_answer "20"
                        (IdToInfo.net
                           (fst (IdToInfo.try_body remote_one_answer no_attrib
                                   "TP53" "7157"
                                   (IdToInfo.start
                                      [("TP53", "7157"); ("X", "20")]))))))
                RetryError) as H.
  assert (Hrun : IdToInfo.main remote_one_answer no_attrib
                   [("TP53", "7157"); ("X", "20")] =
                 let (st, o) :=
                   IdToInfo.loop remote_one_answer no_attrib 100000
                     [("X", "20")]
                     (IdToInfo.next_num
                        (fst (IdToInfo.try_body remote_one_answer no_attrib
                                "TP53" "7157"
                                (IdToInfo.start
                                   [("TP53", "7157"); ("X", "20")])))) in
                 match o with
                 | Ok _ =>
                     (IdToInfo.mkInfoState (IdToInfo.net st)
                        (IdToInfo.response st) (IdToInfo.gene_info_dict st)
                        (IdToInfo.log_file st) (IdToInfo.genes_xml st)
                        (IdToInfo.failed_genes_id st) (IdToInfo.stdout st)
                        (IdToInfo.num st) (Some (IdToInfo.gene_info_dict st)),
                      Ok tt)
                 | Raise e => (st, Raise e)
                 end) by (vm_compute; reflexivity).
  rewrite Hrun, H.
  - split; reflexivity.
  - reflexivity.
  - vm_compute. discriminate.
  - vm_compute. reflexivity.
Defined.





(** X17: a record without a [Gene-ref_locus] node, which the first
    script tolerates (it only logs that no official symbol was found),
    is a failure for the second: [root.find(...).text] raises, the entry
    goes to [failed_genes_id.txt] and gets no entry in the dictionary,
    although its XML file has already been written. *)
Theorem record_without_locus_fails_after_its_file_is_written
    (remote : Remote) (attrib_value : Element -> option string)
    (nums_limit : Z) (gene_name gene_id : string)
    (rest : list (string * string)) (st : IdToInfo.InfoState)
    (n : State) (r : Response) (root : Element) :
  IdToInfo.num st <> nums_limit ->
  call_efetch remote gene_id (IdToInfo.net st) = (n, Ok r) ->
  body r = BodyXml root ->
  findall locus_path root = [] ->
  IdToInfo.loop remote attrib_value nums_limit ((gene_name, gene_id) :: rest) st =
  IdToInfo.loop remote attrib_value nums_limit rest
    (IdToInfo.mkInfoState n (Some r) (IdToInfo.gene_info_dict st)
       (IdToInfo.log_file st ++
        [IdToInfo.InfoFailed gene_name gene_id (OtherError "AttributeError")])
       (IdToInfo.genes_xml st ++ [(gene_name, gene_id, BodyXml root)])
       (IdToInfo.failed_genes_id st ++ [(gene_name, gene_id)])
       (IdToInfo.stdout st ++ [BodyXml root])
       (IdToInfo.num st + 1) (IdToInfo.genes_info_json st)).
Proof.
  intros Hnum Hcall Hbody Hlocus. cbn [IdToInfo.loop].
  destruct (Z.eqb_spec (IdToInfo.num st) nums_limit) as [Heq | _];
    [contradiction|].
  unfold IdToInfo.try_body. rewrite Hcall, Hbody.
  unfold IdToInfo.extract, find. rewrite Hlocus. cbn [head].
  unfold IdToInfo.except_handler. cbn [IdToInfo.response]. rewrite Hbody.
  reflexivity.
Qed.

Lemma record_without_locus_fails_after_its_file_is_written_witness :
  IdToInfo.loop remote_nameless no_attrib 100000 [("TP53", "7157")]
    (IdToInfo.start [("TP53", "7157")]) =
  IdToInfo.loop remote_nameless no_attrib 100000 []
    (IdToInfo.mkInfoState
       (fst (call_efetch remote_nameless "7157" init_state))
       (Some {| status_code := 200;
                body := BodyXml (gene_record false [] ["P53"]) |})
       (IdToInfo.gene_info_dict (IdToInfo.start [("TP53", "7157")]))
       (IdToInfo.log_file (IdToInfo.start [("TP53", "7157")]) ++
        [IdToInfo.InfoFailed "TP53" "7157" (OtherError "AttributeError")])
       (IdToInfo.genes_xml (IdToInfo.start [("TP53", "7157")]) ++
        [("TP53", "7157", BodyXml (gene_record false [] ["P53"]))])
       (IdToInfo.failed_genes_id (IdToInfo.start [("TP53", "7157")]) ++
        [("TP53", "7157")])
       (IdToInfo.stdout (IdToInfo.start [("TP53", "7157")]) ++
        [BodyXml (gene_record false [] ["P53"])])
       (IdToInfo.num (IdToInfo.start [("TP53", "7157")]) + 1)
       (IdToInfo.genes_info_json (IdToInfo.start [("TP53", "7157")]))).
Proof.
  refine (record_without_locus_fails_after_its_file_is_written
            remote_nameless no_attrib 100000 "TP53" "7157" []
            (IdToInfo.start [("TP53", "7157")]) _ _
            (gene_record false [] ["P53"]) _ _ _ _).
  - cbn. discriminate.
  - vm_compute. reflexivity.
  - reflexivity.
  - reflexivity.
Defined.

(** X18: whenever the second script extracts the fields of a record,
    the official symbol and the aliases it stores are the ones the
    first script compared the input symbol with. *)
Theorem stored_symbol_is_the_compared_symbol
    (attrib_value : Element -> option string) (root : Element)
    (info : IdToInfo.GeneInfo) :
  IdToInfo.extract attrib_value root = Ok info ->
  IdToInfo.official_symbol info = official_symbol_of root /\
  IdToInfo.gene_aliases info = gene_aliases_of root.
Proof.
  intros H. unfold IdToInfo.extract in H.
  destruct (find locus_path root) as [locus|] eqn:Hl; [|discriminate].
  assert (Hfields : IdToInfo.official_symbol info = text_of locus /\
                    IdToInfo.gene_aliases info = texts (findall syn_path root)).
  { destruct (find IdToInfo.type_path root) as [t|].
    - destruct (attrib_value t); [|discriminate].
      injection H as <-. split; reflexivity.
    - injection H as <-. split; reflexivity. }
  destruct Hfields as [-> ->].
  unfold official_symbol_of, gene_aliases_of, find, texts in *.
  destruct (findall locus_path root) as [|first others]; [discriminate|].
  cbn in Hl. injection Hl as ->. split; reflexivity.
Qed.

Lemma stored_symbol_is_the_compared_symbol_witness :
  Some "TP53" = official_symbol_of (gene_record false ["TP53"; "OLD"] ["P53"]) /\
  [Some "P53"] = gene_aliases_of (gene_record false ["TP53"; "OLD"] ["P53"]).
Proof.
  refine (stored_symbol_is_the_compared_symbol no_attrib
            (gene_record false ["TP53"; "OLD"] ["P53"])
            (IdToInfo.mkGeneInfo (Some "TP53") (Some "NaN") "NaN" (Some "NaN")
               [Some "P53"]) _).
  reflexivity.
Defined.

(** * The third script: load_gene_ids of extract_data.py *)

Lemma fold_insert_other (l : list (string * string)) :
  forall (m : gmap string string) v,
  ~ In v (map snd l) ->
  fold_left (fun m kv => <[snd kv := fst kv]> m) l m !! v = m !! v.
Proof.
  induction l as [|[k w] rest IH]; intros m v Hnot; [reflexivity|].
  cbn [fold_left fst snd]. rewrite IH by (cbn in Hnot; tauto).
  apply lookup_insert_ne. cbn in Hnot. tauto.
Qed.

Lemma fold_insert_some (l : list (string * string)) :
  forall (m : gmap string string) v,
  In v (map snd l) ->
  exists k,
    fold_left (fun m kv => <[snd kv := fst kv]> m) l m !! v = Some k /\
    In (k, v) l.
Proof.
  induction l as [|[k w] rest IH]; intros m v Hin; [destruct Hin|].
  cbn [fold_left fst snd].
  destruct (in_dec String.string_dec v (map snd rest)) as [Hrest | Hrest].
  - destruct (IH (<[w := k]> m) v Hrest) as (k' & E & Hk').
    exists k'. split; [exact E | right; exact Hk'].
  - destruct Hin as [Hv | Hin]; [|contradiction]. cbn in Hv. subst w.
    exists k. rewrite fold_insert_other by exact Hrest.
    rewrite lookup_insert_eq. split; [reflexivity | left; reflexivity].
Qed.

Lemma fold_insert_nodup (l : list (string * string)) :
  forall (m : gmap string string) k v,
  List.NoDup (map snd l) -> In (k, v) l ->
  fold_left (fun m kv => <[snd kv := fst kv]> m) l m !! v = Some k.
Proof.
  induction l as [|[k0 w] rest IH]; intros m k v Hnd Hin; [destruct Hin|].
  cbn [fold_left fst snd]. cbn in Hnd. inversion Hnd as [|? ? Hw Hnd']; subst.
  destruct Hin as [Heq | Hin].
  - injection Heq as -> ->. rewrite fold_insert_other by exact Hw.
    apply lookup_insert_eq.
  - apply IH; assumption.
Qed.

(** X19: every identifier [load_gene_ids] returns in [gene_ids] is a key
    of the [id_to_gene] it returns, so the renaming of line 100 never
    raises [KeyError]; and the name it finds is that of a gene that is
    a key of [gene_to_id.json] and carries this identifier in
    [gene_ensg_id_dict.json]. *)
Theorem every_gene_id_has_a_name (gene_ensg_items : list (string * string))
    (gene_to_id : gmap string string) (ensg : string) :
  In ensg (fst (ExtractData.load_gene_ids gene_ensg_items gene_to_id)) ->
  exists gene,
    snd (ExtractData.load_gene_ids gene_ensg_items gene_to_id) !! ensg =
      Some gene /\
    In (gene, ensg) gene_ensg_items /\
    is_Some (gene_to_id !! gene).
Proof.
  unfold ExtractData.load_gene_ids. cbn [fst snd]. intros Hin.
  destruct (fold_insert_some _ ∅ ensg Hin) as (gene & E & Hgene).
  exists gene. split; [exact E|].
  apply filter_In in Hgene. destruct Hgene as [Hitem Hsel].
  split; [exact Hitem|]. cbn in Hsel. apply bool_decide_eq_true in Hsel.
  exact Hsel.
Qed.

Lemma every_gene_id_has_a_name_witness :
  exists gene,
    snd (ExtractData.load_gene_ids
           [("TP53", "ENSG00000141510"); ("FOO", "ENSG0"); ("X", "ENSG1")]
           (<["TP53" := "7157"]> (<["X" := "20"]> ∅))) !! "ENSG1" = Some gene /\
    In (gene, "ENSG1")
       [("TP53", "ENSG00000141510"); ("FOO", "ENSG0"); ("X", "ENSG1")] /\
    is_Some ((<["TP53" := "7157"]> (<["X" := "20"]> ∅) : gmap string string)
               !! gene).
Proof.
  refine (every_gene_id_has_a_name
            [("TP53", "ENSG00000141510"); ("FOO", "ENSG0"); ("X", "ENSG1")]
            (<["TP53" := "7157"]> (<["X" := "20"]> ∅)) "ENSG1" _).
  vm_compute. right. left. reflexivity.
Defined.

(** X20: when the selected genes carry pairwise distinct identifiers,
    renaming the columns through [id_to_gene] gives back exactly the
    names of the selected genes, in the order of
    [gene_ensg_id_dict.json]. *)
Theorem renaming_restores_the_selected_names
    (gene_ensg_items : list (string * string))
    (gene_to_id : gmap string string) :
  List.NoDup (fst (ExtractData.load_gene_ids gene_ensg_items gene_to_id)) ->
  ExtractData.renamed_columns
    (fst (ExtractData.load_gene_ids gene_ensg_items gene_to_id))
    (snd (ExtractData.load_gene_ids gene_ensg_items gene_to_id)) =
  map (fun kv => Some (fst kv))
      (List.filter (fun kv => bool_decide (is_Some (gene_to_id !! fst kv)))
                   gene_ensg_items).
Proof.
  unfold ExtractData.load_gene_ids, ExtractData.renamed_columns.
  cbn [fst snd]. intros Hnd. rewrite map_map.
  apply map_ext_in. intros [k v] Hin. cbn [fst snd].
  apply fold_insert_nodup; assumption.
Qed.

Lemma renaming_restores_the_selected_names_witness :
  ExtractData.renamed_columns
    (fst (ExtractData.load_gene_ids
            [("TP53", "ENSG00000141510"); ("FOO", "ENSG0"); ("X", "ENSG1")]
            (<["TP53" := "7157"]> (<["X" := "20"]> ∅))))
    (snd (ExtractData.load_gene_ids
            [("TP53", "ENSG00000141510"); ("FOO", "ENSG0"); ("X", "ENSG1")]
            (<["TP53" := "7157"]> (<["X" := "20"]> ∅)))) =
  map (fun kv => Some (fst kv))
      (List.filter
         (fun kv => bool_decide
            (is_Some ((<["TP53" := "7157"]> (<["X" := "20"]> ∅)
                       : gmap string string) !! fst kv)))
         [("TP53", "ENSG00000141510"); ("FOO", "ENSG0"); ("X", "ENSG1")]).
Proof.
  refine (renaming_restores_the_selected_names
            [("TP53", "ENSG00000141510"); ("FOO", "ENSG0"); ("X", "ENSG1")]
            (<["TP53" := "7157"]> (<["X" := "20"]> ∅)) _).
  vm_compute. repeat constructor; cbn; intuition discriminate.
Defined.


